(** * Verification of [scripts/lint-queue-update.py]

    The script rewrites one record of a tab-separated queue file.  This
    development embeds it shallowly: Python strings are lists of Unicode
    code points, the library calls the script makes ([str.splitlines],
    [str.strip], [str.split], [str.join], [Path.read_text],
    [Path.write_text], [print]) are Rocq functions, and [main] runs in a
    small state-and-exception monad over a file store and an event trace. *)

From Stdlib Require Import NArith Ascii String.
From stdpp Require Import gmap list.

Local Open Scope N_scope.
Local Open Scope nat_scope.

(** ** Python strings *)

(** A [str] is a sequence of code points. *)
Abbreviation char := N (only parsing).
Abbreviation str := (list N) (only parsing).

Definition HT : char := 9%N.
Definition LF : char := 10%N.
Definition CR : char := 13%N.
Definition HASH : char := 35%N.

(** An ASCII literal as a [str]. *)
Definition lit (s : string) : str := map N_of_ascii (list_ascii_of_string s).
Arguments lit s%_string.

Module Py.

(** [ch.isspace()] for one code point: the white-space table of CPython
    ([_PyUnicode_IsWhitespace]). *)
Definition isspace (c : char) : bool :=
  ((9 <=? c) && (c <=? 13) || (28 <=? c) && (c <=? 32)
   || (c =? 133) || (c =? 160) || (c =? 5760)
   || (8192 <=? c) && (c <=? 8202)
   || (c =? 8232) || (c =? 8233) || (c =? 8239) || (c =? 8287)
   || (c =? 12288))%N.

(** The line boundaries of [str.splitlines] ([_PyUnicode_IsLinebreak]). *)
Definition islinebreak (c : char) : bool :=
  ((10 <=? c) && (c <=? 13) || (28 <=? c) && (c <=? 30)
   || (c =? 133) || (c =? 8232) || (c =? 8233))%N.

(** A code point the UTF-8 codec encodes: a scalar value, so not a
    surrogate (which [sys.argv] can carry through [surrogateescape]). *)
Definition encodable (c : char) : bool :=
  ((c <? 55296) || (57344 <=? c) && (c <=? 1114111))%N.

(** [s.startswith(p)] *)
Definition startswith (s p : str) : bool := bool_decide (take (length p) s = p).

(** [s.lstrip()], [s.rstrip()], [s.strip()] *)
Fixpoint lstrip (s : str) : str :=
  match s with
  | c :: s' => if isspace c then lstrip s' else s
  | [] => []
  end.

Definition rstrip (s : str) : str := reverse (lstrip (reverse s)).

Definition strip (s : str) : str := rstrip (lstrip s).

(** Truth value of a string: [bool(s)], false exactly for the empty one. *)
Definition truthy (s : str) : bool :=
  match s with [] => false | _ :: _ => true end.

(** [s.split(sep)] for a one-character separator: every occurrence
    splits, and the result always has at least one element. *)
Fixpoint split (sep : char) (s : str) : list str :=
  match s with
  | [] => [[]]
  | c :: s' =>
      if (c =? sep)%N then [] :: split sep s'
      else match split sep s' with
           | field :: fields => (c :: field) :: fields
           | [] => [[c]]
           end
  end.

(** [sep.join(items)] *)
Fixpoint join (sep : str) (items : list str) : str :=
  match items with
  | [] => []
  | [x] => x
  | x :: rest => x ++ sep ++ join sep rest
  end.

(** [s.splitlines()]: a line ends at every line boundary, CR LF counts
    as one boundary, and a final boundary opens no further line. *)
Fixpoint splitlines (s : str) : list str :=
  match s with
  | [] => []
  | c :: s' =>
      if islinebreak c then
        [] :: match s' with
              | d :: s'' =>
                  if (c =? CR)%N && (d =? LF)%N then splitlines s''
                  else splitlines s'
              | [] => splitlines s'
              end
      else match splitlines s' with
           | line :: lines => (c :: line) :: lines
           | [] => [[c]]
           end
  end.

(** Universal-newlines translation of a text-mode read ([newline=None]):
    CR LF and a lone CR both arrive as LF. *)
Fixpoint universal_newlines (s : str) : str :=
  match s with
  | [] => []
  | c :: s' =>
      if (c =? CR)%N then
        LF :: match s' with
              | d :: s'' =>
                  if (d =? LF)%N then universal_newlines s''
                  else universal_newlines s'
              | [] => []
              end
      else c :: universal_newlines s'
  end.

End Py.

(** ** Files, the error stream and exceptions *)

Inductive exn : Type :=
| OSError             (* the file cannot be opened for reading *)
| UnicodeEncodeError. (* text holding a surrogate reaches the UTF-8 codec *)

Inductive event : Type :=
| ev_read (path : str)
| ev_write (path : str) (data : str)
| ev_stderr (text : str).

(** The store maps a path to the decoded text of the file there; a path
    with no entry cannot be read (missing, not a regular file, or not
    valid UTF-8).  The trace lists every access the program attempts. *)
Record world : Type := World {
  files : gmap (list N) (list N);
  trace : list event
}.

Inductive result (A : Type) : Type :=
| Return (a : A)
| Raise (e : exn).
Arguments Return {A} a.
Arguments Raise {A} e.

Definition io (A : Type) : Type := world -> result A * world.

#[export] Instance io_ret : MRet io := fun A (a : A) w => (Return a, w).

#[export] Instance io_bind : MBind io := fun A B (k : A -> io B) (m : io A) w =>
  match m w with
  | (Return a, w') => k a w'
  | (Raise e, w') => (Raise e, w')
  end.

Definition emit (e : event) (w : world) : world :=
  World (files w) (trace w ++ [e]).

(** [print(text, file=sys.stderr)]: the text and a newline.  The error
    stream replaces what it cannot encode, so this never raises. *)
Definition print_stderr (text : str) : io unit :=
  fun w => (Return tt, emit (ev_stderr (text ++ [LF])) w).

(** [path.read_text(encoding="utf-8")] *)
Definition read_text (path : str) : io (list N) :=
  fun w =>
    match files w !! path with
    | Some content => (Return (Py.universal_newlines content), emit (ev_read path) w)
    | None => (Raise OSError, emit (ev_read path) w)
    end.

(** [path.write_text(data, encoding="utf-8")]: the file is opened for
    writing, which truncates it, and then receives the encoded text; when
    the text cannot be encoded the write raises and the file stays empty.
    Newlines are written as they are (POSIX).  The store has no
    permissions: a file that cannot be opened for writing, where the call
    raises [OSError] and leaves the file as it was, is outside the model,
    so statements about a write are made of runs that return, or hold
    whichever way the open goes. *)
Definition write_text (path : str) (data : str) : io unit :=
  fun w =>
    if forallb Py.encodable data
    then (Return tt, World (<[path:=data]> (files w)) (trace w ++ [ev_write path data]))
    else (Raise UnicodeEncodeError,
          World (<[path:=[]]> (files w)) (trace w ++ [ev_write path data])).

(** ** The script *)

Definition usage : str :=
  lit "Usage: lint-queue-update.py <queue> <id> <status> <commit> <note>".

(** [sys.argv[i]]; every use below is guarded by the length test. *)
Definition argv_at (argv : list (list N)) (i : nat) : str := default [] (argv !! i).

(** The test that sends a line through unchanged. *)
Definition is_comment_or_blank (line : str) : bool :=
  Py.startswith line [HASH] || negb (Py.truthy (Py.strip line)).

(** [parts] after [if len(parts) < 6: parts += [""] * (6 - len(parts))]. *)
Definition pad (parts : list (list N)) : list (list N) :=
  if bool_decide (length parts < 6)
  then parts ++ replicate (6 - length parts) []
  else parts.

(** The body of [for line in lines], on the loop state [(updated, found)]. *)
Definition loop_body (task_id status commit note : str)
    (st : list (list N) * bool) (line : str) : list (list N) * bool :=
  let '(updated, found) := st in
  if is_comment_or_blank line then (updated ++ [line], found)
  else
    let parts := pad (Py.split HT line) in
    if bool_decide (default [] (parts !! 1) = task_id) then
      let parts := <[0:=status]> parts in
      let parts := <[4:=commit]> parts in
      let parts := <[5:=note]> parts in
      (updated ++ [Py.join [HT] (take 6 parts)], true)
    else (updated ++ [Py.join [HT] (take 6 parts)], found).

Definition main (argv : list (list N)) : io Z :=
  if bool_decide (length argv < 6) then
    print_stderr usage ;;
    mret 2%Z
  else
    let queue_path := argv_at argv 1 in
    let task_id := argv_at argv 2 in
    let status := argv_at argv 3 in
    let commit := argv_at argv 4 in
    let note := argv_at argv 5 in
    text ← read_text queue_path ;
    let lines := Py.splitlines text in
    let '(updated, found) :=
      fold_left (loop_body task_id status commit note) lines ([], false) in
    if negb found then
      print_stderr (lit "Task id not found: " ++ task_id) ;;
      mret 1%Z
    else
      write_text queue_path (Py.join [LF] updated ++ [LF]) ;;
      mret 0%Z.

(** ** Vocabulary for the statements *)

(** The lines of a file as the script sees them. *)
Definition file_lines (content : str) : list (list N) :=
  Py.splitlines (Py.universal_newlines content).

(** Field [k] of a line after padding. *)
Definition field (k : nat) (line : str) : str :=
  default [] (pad (Py.split HT line) !! k).

(** The task-id field of a line: index 1 of its padded fields. *)
Definition id_field (line : str) : str := field 1 line.

(** A record line whose task-id field is [task_id]. *)
Definition matches (task_id line : str) : bool :=
  negb (is_comment_or_blank line) && bool_decide (id_field line = task_id).

(** What the loop appends to [updated] for one line. *)
Definition out_line (task_id status commit note line : str) : str :=
  fst (loop_body task_id status commit note ([], false) line) !!! 0.

(** Empty, or white space throughout. *)
Definition whitespace_only (s : str) : Prop := Forall (λ c, Py.isspace c = true) s.

(** No tab, and no line boundary, inside a string. *)
Definition no_tab (s : str) : Prop := HT ∉ s.
Definition no_break (s : str) : Prop := Forall (λ c, Py.islinebreak c = false) s.

(** The six fields the loop joins for a record line. *)
Definition out_fields (task_id status commit note line : str) : list (list N) :=
  if matches task_id line
  then [status; field 1 line; field 2 line; field 3 line; commit; note]
  else [field 0 line; field 1 line; field 2 line;
        field 3 line; field 4 line; field 5 line].

(** The text handed to [write_text] on the success path. *)
Definition new_content (task_id status commit note content : str) : str :=
  Py.join [LF] (map (out_line task_id status commit note) (file_lines content))
    ++ [LF].

(** ** Sample data: the queue of the documented scenario *)

Definition sample_path : str := lit "queue.tsv".

Definition sample_queue : str :=
  lit "# queue" ++ [LF] ++
  lit "pending" ++ [HT] ++ lit "T1" ++ [HT] ++ lit "a" ++ [HT] ++ lit "b" ++ [HT; HT; LF] ++
  lit "pending" ++ [HT] ++ lit "T2" ++ [HT] ++ lit "x" ++ [HT] ++ lit "y" ++ [HT; HT; LF].

Definition sample_result : str :=
  lit "# queue" ++ [LF] ++
  lit "pending" ++ [HT] ++ lit "T1" ++ [HT] ++ lit "a" ++ [HT] ++ lit "b" ++ [HT; HT; LF] ++
  lit "done" ++ [HT] ++ lit "T2" ++ [HT] ++ lit "x" ++ [HT] ++ lit "y" ++ [HT] ++
    lit "abc123" ++ [HT] ++ lit "fixed bug" ++ [LF].

Definition sample_world : world := World {[ sample_path := sample_queue ]} [].

Definition sample_argv (task_id status commit note : str) : list (list N) :=
  [lit "lint-queue-update.py"; sample_path; task_id; status; commit; note].

(** A queue whose first record has two fields only. *)
Definition short_queue : str :=
  lit "todo" ++ [HT] ++ lit "T1" ++ [LF] ++
  lit "pending" ++ [HT] ++ lit "T2" ++ [HT] ++ lit "x" ++ [HT] ++ lit "y" ++ [HT; HT; LF].

(** A queue that lists [T2] twice, the second time with three fields. *)
Definition dup_queue : str :=
  lit "pending" ++ [HT] ++ lit "T2" ++ [HT] ++ lit "x" ++ [HT] ++ lit "y" ++ [HT; HT; LF] ++
  lit "# retried" ++ [LF] ++
  lit "retry" ++ [HT] ++ lit "T2" ++ [HT] ++ lit "z" ++ [LF].

(** A queue with a record that has a single field, so no id. *)
Definition orphan_queue : str :=
  lit "# queue" ++ [LF] ++
  lit "orphan" ++ [LF] ++
  lit "pending" ++ [HT] ++ lit "T1" ++ [HT] ++ lit "a" ++ [HT] ++ lit "b" ++ [HT; HT; LF].

(** A queue with CR LF line ends and a record that has eight fields. *)
Definition crlf_queue : str :=
  lit "# queue" ++ [CR; LF] ++
  lit "pending" ++ [HT] ++ lit "T1" ++ [HT] ++ lit "a" ++ [HT] ++ lit "b" ++ [HT; HT]
    ++ [HT] ++ lit "seven" ++ [HT] ++ lit "eight" ++ [CR; LF] ++
  lit "pending" ++ [HT] ++ lit "T2" ++ [HT] ++ lit "x" ++ [CR; LF].

(** ** The process *)

(** [raise SystemExit(main())]: the status is what [main] returns; an
    exception that nothing catches ends the interpreter with status 1. *)
Definition exit_status (r : result Z) : Z :=
  match r with
  | Return code => code
  | Raise _ => 1%Z
  end.

(** ** The library functions on small inputs *)

Example splitlines_mixed :
  Py.splitlines (lit "a" ++ [CR; LF; LF] ++ lit "b" ++ [11%N] ++ lit "c" ++ [CR])
  = [lit "a"; []; lit "b"; lit "c"].
Proof. reflexivity. Qed.

Example splitlines_empty : Py.splitlines [] = [] ∧ Py.splitlines [LF] = [[]].
Proof. split; reflexivity. Qed.

Example universal_newlines_crlf :
  Py.universal_newlines (lit "a" ++ [CR; LF] ++ lit "b" ++ [CR] ++ lit "c" ++ [LF])
  = lit "a" ++ [LF] ++ lit "b" ++ [LF] ++ lit "c" ++ [LF].
Proof. reflexivity. Qed.

Example split_empty_fields :
  Py.split HT ([HT] ++ lit "x" ++ [HT]) = [[]; lit "x"; []].
Proof. reflexivity. Qed.

Example strip_both_ends :
  Py.strip ([HT; 32%N] ++ lit "a b" ++ [32%N; 160%N]) = lit "a b".
Proof. reflexivity. Qed.

Example join_tabs : Py.join [HT] [lit "a"; []; lit "b"] = lit "a" ++ [HT; HT] ++ lit "b".
Proof. reflexivity. Qed.

Example pad_short : pad [lit "a"; lit "b"] = [lit "a"; lit "b"; []; []; []; []].
Proof. reflexivity. Qed.

(** ** Library facts: [strip] and [startswith] *)

Section strip_facts.

Lemma lstrip_nil (s : str) : Py.lstrip s = [] ↔ whitespace_only s.
Proof.
  unfold whitespace_only. induction s as [|c s IH]; simpl.
  - split; [constructor | done].
  - destruct (Py.isspace c) eqn:Hc.
    + rewrite IH. split; [by constructor | by inversion 1].
    + split; [done | inversion 1; congruence].
Qed.

Lemma lstrip_suffix (s : str) : Py.lstrip s `suffix_of` s.
Proof.
  induction s as [|c s IH]; simpl; [done|].
  destruct (Py.isspace c); [by apply suffix_cons_r | done].
Qed.

Lemma lstrip_head (s : str) c t : Py.lstrip s = c :: t → Py.isspace c = false.
Proof.
  induction s as [|d s IH]; simpl; [done|].
  destruct (Py.isspace d) eqn:Hd; [done|]. by intros [= <- _].
Qed.

Lemma strip_nil (s : str) : Py.strip s = [] ↔ whitespace_only s.
Proof.
  unfold Py.strip, Py.rstrip. split.
  - intros H. apply (f_equal reverse) in H. rewrite reverse_involutive in H.
    change (reverse []) with (@nil N) in H.
    apply lstrip_nil in H. unfold whitespace_only in H.
    rewrite Forall_reverse in H.
    destruct (Py.lstrip s) as [|c t] eqn:Hs; [by apply lstrip_nil|].
    apply lstrip_head in Hs. inversion H; congruence.
  - intros H. apply lstrip_nil in H. by rewrite H.
Qed.

Lemma blank_iff (s : str) :
  negb (Py.truthy (Py.strip s)) = true ↔ whitespace_only s.
Proof.
  rewrite <- strip_nil. destruct (Py.strip s); simpl; split; done.
Qed.

Lemma startswith_hash (s : str) :
  Py.startswith s [HASH] = true ↔ head s = Some HASH.
Proof.
  unfold Py.startswith. rewrite bool_decide_eq_true.
  destruct s as [|c s]; simpl; [split; done|].
  rewrite take_0. split; [by intros [= ->] | by intros [= ->]].
Qed.

Lemma is_comment_or_blank_iff (line : str) :
  is_comment_or_blank line = true ↔ head line = Some HASH ∨ whitespace_only line.
Proof.
  unfold is_comment_or_blank.
  by rewrite orb_true_iff, startswith_hash, blank_iff.
Qed.

Lemma is_record_iff (line : str) :
  is_comment_or_blank line = false ↔ head line ≠ Some HASH ∧ ¬ whitespace_only line.
Proof.
  rewrite <- not_true_iff_false, is_comment_or_blank_iff. tauto.
Qed.

Lemma not_whitespace_only (s : str) :
  Exists (λ c, Py.isspace c = false) s ↔ ¬ whitespace_only s.
Proof.
  unfold whitespace_only. induction s as [|c s IH].
  - split; [by intros ?%Exists_nil | intros []; constructor].
  - rewrite Exists_cons, Forall_cons, IH.
    destruct (Py.isspace c); split; try tauto.
    + intros [?|?]; [done | tauto].
    + intros _ [? _]. done.
Qed.

End strip_facts.

(** ** Library facts: [split] and [join] *)

Section split_facts.
Variable sep : N.

Lemma split_not_nil (s : str) : Py.split sep s ≠ [].
Proof.
  destruct s as [|c s]; simpl; [done|].
  destruct (c =? sep)%N; [done|]. by destruct (Py.split sep s).
Qed.

Lemma split_no_sep (s : str) : Forall (λ f, sep ∉ f) (Py.split sep s).
Proof.
  induction s as [|c s IH]; simpl.
  - repeat constructor. apply not_elem_of_nil.
  - destruct (c =? sep)%N eqn:Hc.
    + constructor; [apply not_elem_of_nil | done].
    + apply N.eqb_neq in Hc.
      destruct (Py.split sep s) as [|f fs].
      * repeat constructor. rewrite elem_of_cons, elem_of_nil.
        intros [?|[]]. congruence.
      * inversion IH; subst. constructor; [|done].
        rewrite elem_of_cons. intros [?|?]; [congruence | done].
Qed.

(** Every character of a field is a character of the line. *)
Lemma split_chars (s : str) f c : f ∈ Py.split sep s → c ∈ f → c ∈ s.
Proof.
  revert f. induction s as [|d s IH]; simpl; intros f Hf Hc.
  - apply list_elem_of_singleton in Hf. by subst.
  - destruct (d =? sep)%N.
    + apply elem_of_cons in Hf as [->|Hf]; [by apply elem_of_nil in Hc|].
      right. eauto.
    + destruct (Py.split sep s) as [|g gs].
      * apply list_elem_of_singleton in Hf as ->.
        apply list_elem_of_singleton in Hc as ->. left.
      * apply elem_of_cons in Hf as [->|Hf].
        -- apply elem_of_cons in Hc as [->|Hc]; [left|right].
           apply (IH g); [left | done].
        -- right. apply (IH f); [by right | done].
Qed.

Lemma split_app_sep (f t : str) :
  sep ∉ f → Py.split sep (f ++ sep :: t) = f :: Py.split sep t.
Proof.
  induction f as [|c f IH]; simpl; intros Hf.
  - by rewrite N.eqb_refl.
  - apply not_elem_of_cons in Hf as [Hc Hf].
    assert ((c =? sep)%N = false) as -> by (apply N.eqb_neq; congruence).
    by rewrite IH.
Qed.

Lemma split_no_sep_id (f : str) : sep ∉ f → Py.split sep f = [f].
Proof.
  induction f as [|c f IH]; simpl; intros Hf; [done|].
  apply not_elem_of_cons in Hf as [Hc Hf].
  assert ((c =? sep)%N = false) as -> by (apply N.eqb_neq; congruence).
  by rewrite IH.
Qed.

(** Splitting undoes joining when no field holds the separator. *)
Lemma split_join (fs : list (list N)) :
  fs ≠ [] → Forall (λ f, sep ∉ f) fs → Py.split sep (Py.join [sep] fs) = fs.
Proof.
  induction fs as [|f fs IH]; [done|]. intros _ Hfs.
  inversion Hfs as [|? ? Hf Hrest]; subst.
  destruct fs as [|g fs]; simpl.
  - by apply split_no_sep_id.
  - rewrite split_app_sep by done. f_equal. by apply IH.
Qed.

Lemma join_split (s : str) : Py.join [sep] (Py.split sep s) = s.
Proof.
  induction s as [|c s IH]; simpl; [done|].
  destruct (c =? sep)%N eqn:Hc.
  - apply N.eqb_eq in Hc as ->.
    pose proof (split_not_nil s).
    destruct (Py.split sep s) as [|f fs]; [done|]. simpl in *. by rewrite IH.
  - destruct (Py.split sep s) as [|f fs] eqn:E; [by rewrite <- IH|].
    rewrite <- IH. by destruct fs.
Qed.

(** A line with fewer than two fields is its own single field. *)
Lemma split_short (s : str) : length (Py.split sep s) < 2 → Py.split sep s = [s].
Proof.
  induction s as [|c s IH]; simpl; [done|].
  pose proof (split_not_nil s) as Hne.
  destruct (c =? sep)%N.
  - destruct (Py.split sep s); simpl; [done | lia].
  - destruct (Py.split sep s) as [|f fs]; [done|]. simpl. intros Hl.
    specialize (IH Hl). by simplify_eq.
Qed.

Lemma join_chars (fs : list (list N)) c :
  c ∈ Py.join [sep] fs → c = sep ∨ ∃ f, f ∈ fs ∧ c ∈ f.
Proof.
  induction fs as [|f fs IH]; simpl; [by intros ?%elem_of_nil|].
  destruct fs as [|g fs].
  - intros Hc. right. exists f. split; [left | done].
  - rewrite elem_of_app, elem_of_cons. intros [Hc|[->|Hc]].
    + right. exists f. split; [left | done].
    + by left.
    + destruct (IH Hc) as [->|(h & Hh & Hch)]; [by left|].
      right. exists h. split; [by right | done].
Qed.

End split_facts.

(** ** Library facts: [splitlines] and the newline translation *)

Section line_facts.

Lemma no_break_nil : no_break [].
Proof. constructor. Qed.

Lemma no_break_cons c (s : str) :
  Py.islinebreak c = false → no_break s → no_break (c :: s).
Proof. by constructor. Qed.

Lemma no_break_app (s t : str) : no_break s → no_break t → no_break (s ++ t).
Proof. unfold no_break. rewrite Forall_app. tauto. Qed.

Lemma no_break_elem (s : str) : no_break s ↔ ∀ c, c ∈ s → Py.islinebreak c = false.
Proof. apply Forall_forall. Qed.

(** No line that [splitlines] returns holds a line boundary. *)
Lemma splitlines_no_break (s : str) : Forall no_break (Py.splitlines s).
Proof.
  remember (length s) as n eqn:Hn.
  assert (length s ≤ n) as Hle by lia. clear Hn.
  revert s Hle. induction n as [|n IH]; intros [|c s] Hle; simpl in *;
    try constructor; try lia.
  destruct (Py.islinebreak c) eqn:Hc.
  - constructor; [apply no_break_nil|].
    destruct s as [|d s]; [constructor|].
    destruct ((c =? CR)%N && (d =? LF)%N); apply IH; simpl in *; lia.
  - specialize (IH s ltac:(lia)).
    destruct (Py.splitlines s) as [|l ls].
    + repeat constructor. done.
    + inversion IH; subst. constructor; [by apply no_break_cons | done].
Qed.

Lemma universal_newlines_id (s : str) : CR ∉ s → Py.universal_newlines s = s.
Proof.
  induction s as [|c s IH]; simpl; [done|].
  intros [Hc Hs]%not_elem_of_cons.
  assert ((c =? CR)%N = false) as -> by (apply N.eqb_neq; congruence).
  by rewrite IH.
Qed.

Lemma splitlines_app_line (l t : str) :
  no_break l → Py.splitlines (l ++ LF :: t) = l :: Py.splitlines t.
Proof.
  induction l as [|c l IH]; simpl; intros Hl.
  - by destruct t.
  - inversion Hl as [|? ? Hc Hl']; subst. by rewrite Hc, IH.
Qed.

(** Reading back what [write_text] is given: the lines that were joined. *)
Lemma splitlines_join (ls : list (list N)) :
  ls ≠ [] → Forall no_break ls → Py.splitlines (Py.join [LF] ls ++ [LF]) = ls.
Proof.
  induction ls as [|l ls IH]; [done|]. intros _ Hls.
  inversion Hls as [|? ? Hl Hrest]; subst.
  destruct ls as [|l2 ls].
  - simpl. by rewrite splitlines_app_line.
  - change (Py.join [LF] (l :: l2 :: ls)) with (l ++ [LF] ++ Py.join [LF] (l2 :: ls)).
    rewrite <- !app_assoc. simpl app at 2.
    rewrite splitlines_app_line by done. f_equal. by apply IH.
Qed.

Lemma CR_not_in_joined (ls : list (list N)) :
  Forall no_break ls → CR ∉ Py.join [LF] ls ++ [LF].
Proof.
  intros Hls. rewrite not_elem_of_app. split.
  - intros [Hc|(l & Hl & Hc)]%join_chars; [done|].
    rewrite Forall_forall in Hls. apply Hls in Hl.
    rewrite no_break_elem in Hl. by apply Hl in Hc.
  - by intros ?%list_elem_of_singleton.
Qed.

Lemma file_lines_joined (ls : list (list N)) :
  ls ≠ [] → Forall no_break ls → file_lines (Py.join [LF] ls ++ [LF]) = ls.
Proof.
  intros Hne Hls. unfold file_lines.
  rewrite universal_newlines_id by by apply CR_not_in_joined.
  by apply splitlines_join.
Qed.

End line_facts.

(** ** The loop, line by line *)

Section loop_facts.
Variables task_id status commit note : list N.

Lemma pad_length (parts : list (list N)) : 6 ≤ length (pad parts).
Proof.
  unfold pad. case_bool_decide; [|lia].
  rewrite length_app, length_replicate. lia.
Qed.

Lemma pad_six (parts : list (list N)) : length parts = 6 → pad parts = parts.
Proof. intros H. unfold pad. case_bool_decide; [lia | done]. Qed.

(** Padding only supplies empty fields. *)
Lemma pad_lookup (parts : list (list N)) k :
  default [] (pad parts !! k) = default [] (parts !! k).
Proof.
  unfold pad. case_bool_decide; [|done].
  destruct (decide (k < length parts)) as [Hk|Hk].
  - by rewrite lookup_app_l.
  - rewrite lookup_app_r, (lookup_ge_None_2 parts) by lia. simpl.
    destruct (replicate _ _ !! _) eqn:E; [|done].
    by apply lookup_replicate in E as [-> _].
Qed.

Lemma take_6_length (parts : list (list N)) :
  6 ≤ length parts → length (take 6 parts) = 6.
Proof. rewrite length_take. lia. Qed.

(** The three assignments, on a list that has all six places. *)
Lemma take_6_update (parts : list (list N)) :
  6 ≤ length parts →
  take 6 (<[5:=note]> (<[4:=commit]> (<[0:=status]> parts))) =
    [status; default [] (parts !! 1); default [] (parts !! 2);
     default [] (parts !! 3); commit; note].
Proof.
  intros H. do 6 (destruct parts as [|? parts]; [simpl in H; lia|]). done.
Qed.

Lemma take_6_fields (parts : list (list N)) :
  6 ≤ length parts →
  take 6 parts =
    [default [] (parts !! 0); default [] (parts !! 1); default [] (parts !! 2);
     default [] (parts !! 3); default [] (parts !! 4); default [] (parts !! 5)].
Proof.
  intros H. do 6 (destruct parts as [|? parts]; [simpl in H; lia|]). done.
Qed.

Lemma loop_body_eq updated found (line : str) :
  loop_body task_id status commit note (updated, found) line =
    (updated ++ [out_line task_id status commit note line],
     found || matches task_id line).
Proof.
  unfold out_line, matches, id_field, field, loop_body.
  destruct (is_comment_or_blank line); simpl.
  - by rewrite orb_false_r.
  - case_bool_decide; simpl; [by rewrite orb_true_r | by rewrite orb_false_r].
Qed.

Lemma out_line_verbatim (line : str) :
  is_comment_or_blank line = true →
  out_line task_id status commit note line = line.
Proof. intros H. unfold out_line, loop_body. by rewrite H. Qed.

Lemma out_line_match (line : str) :
  matches task_id line = true →
  out_line task_id status commit note line =
    Py.join [HT] [status; task_id; field 2 line; field 3 line; commit; note].
Proof.
  unfold matches, id_field, field. intros [Hrec Hid]%andb_true_iff.
  apply negb_true_iff in Hrec. apply bool_decide_eq_true in Hid.
  unfold out_line, loop_body. rewrite Hrec, bool_decide_true by done.
  cbn [fst app]. rewrite take_6_update by apply pad_length.
  by rewrite Hid.
Qed.

Lemma out_line_other (line : str) :
  is_comment_or_blank line = false → matches task_id line = false →
  out_line task_id status commit note line =
    Py.join [HT] (take 6 (pad (Py.split HT line))).
Proof.
  unfold matches, id_field, field. intros Hrec Hid. rewrite Hrec in Hid. simpl in Hid.
  unfold out_line, loop_body. by rewrite Hrec, Hid.
Qed.

Lemma loop_fold (lines : list (list N)) updated found :
  fold_left (loop_body task_id status commit note) lines (updated, found) =
    (updated ++ map (out_line task_id status commit note) lines,
     found || existsb (matches task_id) lines).
Proof.
  revert updated found.
  induction lines as [|line lines IH]; intros; cbn [fold_left map existsb].
  - by rewrite app_nil_r, orb_false_r.
  - rewrite loop_body_eq, IH, <- app_assoc, orb_assoc. done.
Qed.

End loop_facts.

(** ** One run of [main] *)

Section run_facts.
Variables prog path task_id status commit note : list N.
Variable extra : list (list N).

Local Abbreviation argv :=
  (prog :: path :: task_id :: status :: commit :: note :: extra).

Lemma main_run (w : world) (content : str) :
  files w !! path = Some content →
  main argv w =
    if existsb (matches task_id) (file_lines content)
    then (write_text path (new_content task_id status commit note content) ≫= λ _, mret 0%Z)
           (emit (ev_read path) w)
    else (Return 1%Z,
          emit (ev_stderr (lit "Task id not found: " ++ task_id ++ [LF]))
            (emit (ev_read path) w)).
Proof.
  intros Hfile. unfold main.
  rewrite bool_decide_false by (simpl; lia).
  change (argv_at _ 1) with path. change (argv_at _ 2) with task_id.
  change (argv_at _ 3) with status. change (argv_at _ 4) with commit.
  change (argv_at _ 5) with note.
  unfold mbind at 1, io_bind at 1, read_text at 1. rewrite Hfile.
  fold (file_lines content). rewrite loop_fold. cbn [orb app negb].
  unfold new_content.
  destruct (existsb _ _); cbn [negb]; [done|].
  unfold mbind, io_bind, print_stderr, mret, io_ret.
  by rewrite <- app_assoc.
Qed.

End run_facts.

(** ** Record lines: what is written and how it reads back *)

Section record_facts.
Variables task_id status commit note : list N.

Local Abbreviation out := (out_line task_id status commit note).
Local Abbreviation fields_of := (out_fields task_id status commit note).

Lemma field_unpadded k (line : str) :
  field k line = default [] (Py.split HT line !! k).
Proof. apply pad_lookup. Qed.

Lemma field_no_tab k (line : str) : no_tab (field k line).
Proof.
  rewrite field_unpadded. unfold no_tab.
  destruct (Py.split HT line !! k) as [f|] eqn:E; simpl.
  - apply list_elem_of_lookup_2 in E.
    pose proof (split_no_sep HT line) as H. rewrite Forall_forall in H. eauto.
  - apply not_elem_of_nil.
Qed.

Lemma field_chars k (line : str) c : c ∈ field k line → c ∈ line.
Proof.
  rewrite field_unpadded.
  destruct (Py.split HT line !! k) as [f|] eqn:E; simpl.
  - apply list_elem_of_lookup_2 in E. by apply (split_chars HT).
  - by intros ?%elem_of_nil.
Qed.

Lemma matches_record (line : str) :
  is_comment_or_blank line = false →
  matches task_id line = bool_decide (field 1 line = task_id).
Proof. intros H. unfold matches, id_field. by rewrite H. Qed.

Lemma out_line_record (line : str) :
  is_comment_or_blank line = false → out line = Py.join [HT] (fields_of line).
Proof.
  intros Hrec. unfold out_fields.
  destruct (matches task_id line) eqn:Hm.
  - rewrite out_line_match by done.
    rewrite matches_record in Hm by done.
    apply bool_decide_eq_true in Hm. by rewrite Hm.
  - rewrite out_line_other by done.
    by rewrite take_6_fields by apply pad_length.
Qed.

Lemma out_fields_length (line : str) : length (fields_of line) = 6.
Proof. unfold out_fields. by destruct (matches task_id line). Qed.

Section tab_free.
Hypothesis status_no_tab : no_tab status.
Hypothesis commit_no_tab : no_tab commit.
Hypothesis note_no_tab : no_tab note.

Lemma out_fields_no_tab (line : str) : Forall no_tab (fields_of line).
Proof.
  unfold out_fields. destruct (matches task_id line);
    repeat (apply Forall_cons; split); auto using field_no_tab.
Qed.

(** Splitting a written record returns the six fields it was joined
    from. *)
Lemma split_out_line (line : str) :
  is_comment_or_blank line = false →
  Py.split HT (out line) = fields_of line.
Proof.
  intros Hrec. rewrite out_line_record by done.
  apply split_join; [|apply out_fields_no_tab].
  intros E. pose proof (out_fields_length line) as H. by rewrite E in H.
Qed.

Lemma field_out_line k (line : str) :
  is_comment_or_blank line = false →
  field k (out line) = default [] (fields_of line !! k).
Proof. intros Hrec. by rewrite field_unpadded, split_out_line. Qed.

Lemma matches_out_line (line : str) :
  is_comment_or_blank line = false →
  is_comment_or_blank (out line) = false →
  matches task_id (out line) = matches task_id line.
Proof.
  intros Hrec Hout. rewrite !matches_record by done.
  rewrite field_out_line by done.
  unfold out_fields. by destruct (matches task_id line).
Qed.

(** Rewriting a line that was already rewritten changes nothing. *)
Lemma out_line_idem (line : str) : out (out line) = out line.
Proof.
  destruct (is_comment_or_blank line) eqn:Hrec.
  { by rewrite !(out_line_verbatim _ _ _ _ line Hrec). }
  destruct (is_comment_or_blank (out line)) eqn:Hout.
  { by rewrite (out_line_verbatim _ _ _ _ (out line) Hout). }
  rewrite (out_line_record (out line)) by done.
  rewrite (out_line_record line) at 2 by done. f_equal.
  unfold out_fields at 1. rewrite matches_out_line by done.
  rewrite !field_out_line by done.
  unfold out_fields. by destruct (matches task_id line).
Qed.

(** A rewritten match is a match again when read back, provided it
    still reads as a record. *)
Lemma rewritten_match_matches (line : str) :
  matches task_id line = true →
  head status ≠ Some HASH →
  ¬ whitespace_only (status ++ task_id ++ commit ++ note) →
  matches task_id (out line) = true.
Proof.
  intros Hm Hhash Hws.
  assert (is_comment_or_blank line = false) as Hrec.
  { unfold matches in Hm. apply andb_true_iff in Hm as [Hm _].
    by apply negb_true_iff in Hm. }
  assert (is_comment_or_blank (out line) = false) as Hout.
  { apply is_record_iff. rewrite out_line_match by done. split.
    - destruct status; simpl in *; [discriminate | done].
    - intros Hall. apply Hws. unfold whitespace_only in *.
      simpl in Hall.
      repeat (rewrite Forall_app in Hall || rewrite Forall_cons in Hall).
      rewrite !Forall_app. tauto. }
  by rewrite matches_out_line.
Qed.

End tab_free.

Lemma tab_not_break c : c = HT → Py.islinebreak c = false.
Proof. by intros ->. Qed.

Lemma out_line_no_break (line : str) :
  no_break status → no_break commit → no_break note →
  no_break line → no_break (out line).
Proof.
  intros Hs Hc Hn Hl.
  destruct (is_comment_or_blank line) eqn:Hrec.
  { by rewrite out_line_verbatim. }
  rewrite out_line_record by done.
  apply no_break_elem. intros c [->|(f & Hf & Hcf)]%join_chars; [done|].
  rewrite no_break_elem in Hs, Hc, Hn, Hl.
  unfold out_fields in Hf. destruct (matches task_id line);
    repeat (apply elem_of_cons in Hf as [->|Hf]);
    try (by apply elem_of_nil in Hf); eauto using field_chars.
Qed.

(** Reading the written file back gives the output sequence. *)
Lemma written_lines (content : str) :
  no_break status → no_break commit → no_break note →
  file_lines content ≠ [] →
  file_lines (new_content task_id status commit note content) =
    map out (file_lines content).
Proof.
  intros Hs Hc Hn Hne. unfold new_content. apply file_lines_joined.
  - by destruct (file_lines content).
  - apply Forall_map. eapply Forall_impl; [apply splitlines_no_break|].
    intros l Hl. by apply out_line_no_break.
Qed.

Lemma existsb_matches_not_nil (lines : list (list N)) :
  existsb (matches task_id) lines = true → lines ≠ [].
Proof. by destruct lines. Qed.

End record_facts.

(** ** Runs that return *)

Section returns.
Variables prog path task_id status commit note : list N.
Variable extra : list (list N).

Local Abbreviation argv :=
  (prog :: path :: task_id :: status :: commit :: note :: extra).
Local Abbreviation data := (new_content task_id status commit note).

Lemma matches_iff (line : str) :
  matches task_id line = true ↔
  is_comment_or_blank line = false ∧ id_field line = task_id.
Proof.
  unfold matches.
  by rewrite andb_true_iff, negb_true_iff, bool_decide_eq_true.
Qed.

Lemma found_iff (lines : list (list N)) :
  existsb (matches task_id) lines = true ↔
  ∃ i line, lines !! i = Some line ∧
            is_comment_or_blank line = false ∧ id_field line = task_id.
Proof.
  rewrite existsb_exists. split.
  - intros (line & Hin & Hm). apply list_elem_of_In in Hin.
    apply list_elem_of_lookup in Hin as [i Hi].
    exists i, line. split; [done | by apply matches_iff].
  - intros (i & line & Hi & Hm). exists line. split.
    + apply list_elem_of_In. by eapply list_elem_of_lookup_2.
    + by apply matches_iff.
Qed.

(** A run on a readable file returns 0 after writing the new text, or 1
    after the diagnostic; it raises only when the text cannot be
    encoded. *)
Lemma main_returns (w w' : world) (content : str) code :
  files w !! path = Some content →
  main argv w = (Return code, w') →
  code = 0%Z ∧
    existsb (matches task_id) (file_lines content) = true ∧
    forallb Py.encodable (data content) = true ∧
    w' = World (<[path:=data content]> (files w))
           (trace w ++ [ev_read path; ev_write path (data content)])
  ∨ code = 1%Z ∧
    existsb (matches task_id) (file_lines content) = false ∧
    w' = World (files w)
           (trace w ++ [ev_read path;
                        ev_stderr (lit "Task id not found: " ++ task_id ++ [LF])]).
Proof.
  intros Hfile. rewrite (main_run _ _ _ _ _ _ _ _ _ Hfile).
  destruct (existsb _ _).
  - unfold mbind, io_bind, write_text.
    destruct (forallb _ _); [|done].
    intros [= <- <-]. left. unfold emit; simpl. by rewrite <- app_assoc.
  - intros [= <- <-]. right. unfold emit; simpl. by rewrite <- app_assoc.
Qed.

End returns.

(** ** Usage errors and lookup misses *)

(** C7. With fewer than five arguments after the program name, [main]
    prints the usage message on the error stream and returns 2; the trace
    gains that one event, so the file is neither read nor written, and the
    store is unchanged. *)
Theorem usage_error (argv : list (list N)) (w : world) :
  length argv < 6 →
  main argv w =
    (Return 2%Z, World (files w) (trace w ++ [ev_stderr (usage ++ [LF])])).
Proof.
  intros Hlen. unfold main. by rewrite bool_decide_true.
Qed.

Lemma usage_error_witness :
  let argv := [lit "lint-queue-update.py"; sample_path; lit "T2"; lit "done"] in
  length argv < 6 ∧
  main argv sample_world =
    (Return 2%Z, World (files sample_world) [ev_stderr (usage ++ [LF])]).
Proof.
  split; [simpl; lia | apply (usage_error _ sample_world); simpl; lia].
Defined.

(** C1. When no record line of the file has [task_id] in its task-id field
    (index 1 after padding), [main] returns 1, prints a diagnostic that
    names [task_id] on the error stream, and leaves the store as it was:
    the trace shows the read and the diagnostic and no write. *)
Theorem lookup_miss (prog path task_id status commit note : list N)
    (extra : list (list N)) (w : world) (content : list N) :
  files w !! path = Some content →
  (∀ line, line ∈ file_lines content →
     is_comment_or_blank line = false → id_field line ≠ task_id) →
  main (prog :: path :: task_id :: status :: commit :: note :: extra) w =
    (Return 1%Z,
     World (files w)
       (trace w ++ [ev_read path;
                    ev_stderr (lit "Task id not found: " ++ task_id ++ [LF])])).
Proof.
  intros Hfile Hmiss. rewrite (main_run _ _ _ _ _ _ _ _ _ Hfile).
  assert (existsb (matches task_id) (file_lines content) = false) as ->.
  { apply not_true_iff_false. intros (line & Hin & Hm)%existsb_exists.
    apply list_elem_of_In in Hin. unfold matches in Hm.
    apply andb_true_iff in Hm as [Hrec Hid].
    apply negb_true_iff in Hrec. apply bool_decide_eq_true in Hid.
    by apply (Hmiss line). }
  unfold emit; simpl. by rewrite <- app_assoc.
Qed.

Lemma lookup_miss_witness :
  files sample_world !! sample_path = Some sample_queue ∧
  main (sample_argv (lit "T9") (lit "done") (lit "abc123") (lit "fixed bug"))
       sample_world =
    (Return 1%Z,
     World (files sample_world)
       [ev_read sample_path; ev_stderr (lit "Task id not found: T9" ++ [LF])]).
Proof.
  split; [reflexivity|].
  apply (lookup_miss _ sample_path (lit "T9") _ _ _ [] sample_world sample_queue).
  - reflexivity.
  - intros line Hin _.
    assert (existsb (λ l, bool_decide (id_field l = lit "T9"))
              (file_lines sample_queue) = false) as Hnone by (vm_compute; reflexivity).
    intros Hid. apply not_true_iff_false in Hnone. apply Hnone.
    apply existsb_exists. exists line.
    split; [by apply list_elem_of_In | by apply bool_decide_eq_true].
Defined.

(** ** The documented scenario *)

(** C4. On the three-line sample queue, updating [T2] to [done] with commit
    [abc123] and note [fixed bug] returns 0 and writes the expected text:
    the first two lines as they were, the third rewritten, and one
    trailing newline. *)
Theorem scenario_update (prog path : list N) (extra : list (list N)) (w : world) :
  files w !! path = Some sample_queue →
  main (prog :: path :: lit "T2" :: lit "done" :: lit "abc123"
          :: lit "fixed bug" :: extra) w =
    (Return 0%Z,
     World (<[path:=sample_result]> (files w))
       (trace w ++ [ev_read path; ev_write path sample_result])).
Proof.
  intros Hfile. rewrite (main_run _ _ _ _ _ _ _ _ _ Hfile).
  assert (existsb (matches (lit "T2")) (file_lines sample_queue) = true) as ->
    by (vm_compute; reflexivity).
  assert (new_content (lit "T2") (lit "done") (lit "abc123") (lit "fixed bug")
            sample_queue = sample_result) as -> by (vm_compute; reflexivity).
  unfold mbind, io_bind, write_text.
  assert (forallb Py.encodable sample_result = true) as ->
    by (vm_compute; reflexivity).
  unfold emit, mret, io_ret; simpl. by rewrite <- app_assoc.
Qed.

Lemma scenario_update_witness :
  files sample_world !! sample_path = Some sample_queue ∧
  main (sample_argv (lit "T2") (lit "done") (lit "abc123") (lit "fixed bug"))
       sample_world =
    (Return 0%Z,
     World (<[sample_path:=sample_result]> (files sample_world))
       [ev_read sample_path; ev_write sample_path sample_result]).
Proof.
  split; [reflexivity|].
  apply (scenario_update _ sample_path [] sample_world). reflexivity.
Defined.

(** ** Lines that pass through *)

(** C6. Every line that starts with [#], is empty, or holds only white
    space stands in the output sequence at the index it has in the input,
    unchanged, whatever the other lines are and whether or not a record
    matches; the loop body appends such a line as it is and leaves [found]
    alone.  A run that returns wrote exactly that sequence (code 0) or
    left the store untouched (code 1). *)
Theorem comment_blank_preserved (prog path task_id status commit note : list N)
    (extra : list (list N)) (w : world) (content : list N) :
  files w !! path = Some content →
  ∃ updated found,
    fold_left (loop_body task_id status commit note) (file_lines content)
      ([], false) = (updated, found) ∧
    length updated = length (file_lines content) ∧
    (∀ i line,
       file_lines content !! i = Some line →
       head line = Some HASH ∨ whitespace_only line →
       updated !! i = Some line ∧
       ∀ acc flag, loop_body task_id status commit note (acc, flag) line =
                   (acc ++ [line], flag)) ∧
    (∀ code w',
       main (prog :: path :: task_id :: status :: commit :: note :: extra) w =
         (Return code, w') →
       code = 0%Z ∧ found = true ∧
         files w' = <[path:=Py.join [LF] updated ++ [LF]]> (files w)
       ∨ code = 1%Z ∧ found = false ∧ files w' = files w).
Proof.
  intros Hfile. eexists _, _. split; [apply loop_fold|].
  cbn [app orb]. split; [by rewrite length_map|]. split.
  - intros i line Hi Hline. apply is_comment_or_blank_iff in Hline.
    split.
    + rewrite list_lookup_fmap, Hi. simpl. f_equal.
      by apply out_line_verbatim.
    + intros acc flag. unfold loop_body. by rewrite Hline.
  - intros code w'. rewrite (main_run _ _ _ _ _ _ _ _ _ Hfile).
    fold (new_content task_id status commit note content).
    destruct (existsb _ _).
    + unfold mbind, io_bind, write_text. destruct (forallb _ _); [|done].
      intros [= <- <-]. by left.
    + intros [= <- <-]. by right.
Qed.

Lemma comment_blank_preserved_witness :
  files sample_world !! sample_path = Some sample_queue ∧
  ∃ updated found,
    fold_left (loop_body (lit "T2") (lit "done") (lit "abc123") (lit "fixed bug"))
      (file_lines sample_queue) ([], false) = (updated, found) ∧
    updated !! 0 = Some (lit "# queue").
Proof.
  split; [reflexivity|].
  destruct (comment_blank_preserved (lit "lint-queue-update.py") sample_path
              (lit "T2") (lit "done") (lit "abc123") (lit "fixed bug") []
              sample_world sample_queue eq_refl)
    as (updated & found & Hloop & _ & Hkeep & _).
  exists updated, found. split; [exact Hloop|].
  apply (Hkeep 0 (lit "# queue")); [reflexivity | left; reflexivity].
Defined.

(** C9. A line made only of tabs and other white space is classified as
    blank: the loop body appends it as it is, neither padded nor cut, and
    leaves [found] as it was, for every [task_id], the empty one too. *)
Theorem whitespace_line_is_blank (task_id status commit note : list N)
    (updated : list (list N)) (found : bool) (line : list N) :
  Forall (λ c, c = HT ∨ Py.isspace c = true) line →
  is_comment_or_blank line = true ∧
  matches task_id line = false ∧
  matches [] line = false ∧
  loop_body task_id status commit note (updated, found) line =
    (updated ++ [line], found).
Proof.
  intros Hline.
  assert (whitespace_only line) as Hws.
  { eapply Forall_impl; [exact Hline|]. by intros c [->|Hc]. }
  assert (is_comment_or_blank line = true) as Hblank
    by (apply is_comment_or_blank_iff; by right).
  unfold matches, loop_body. by rewrite Hblank.
Qed.

Lemma whitespace_line_is_blank_witness :
  loop_body [] (lit "done") (lit "abc123") (lit "note") ([], false)
    [HT; HT; 32%N; HT; HT; HT] = ([[HT; HT; 32%N; HT; HT; HT]], false).
Proof.
  apply (whitespace_line_is_blank [] (lit "done") (lit "abc123") (lit "note")
           [] false [HT; HT; 32%N; HT; HT; HT]).
  repeat (apply Forall_cons; split;
          [first [left; reflexivity | right; reflexivity]|]).
  apply Forall_nil_2.
Defined.

(** ** Records with a missing id field *)

(** The loop step on a record without an id field: with the empty
    [task_id] its padded field 1 matches, so the body sets [found] and
    appends the line rewritten with [status], [commit] and [note]. *)
Lemma empty_id_step (status commit note : list N)
    (updated : list (list N)) (found : bool) (line : list N) :
  length (Py.split HT line) < 2 →
  head line ≠ Some HASH →
  Exists (λ c, Py.isspace c = false) line →
  id_field line = [] ∧
  loop_body [] status commit note (updated, found) line =
    (updated ++ [Py.join [HT] [status; []; []; []; commit; note]], true).
Proof.
  intros Hshort Hhash Hchar.
  assert (is_comment_or_blank line = false) as Hrec
    by (apply is_record_iff; split; [done | by apply not_whitespace_only]).
  apply split_short in Hshort.
  assert (id_field line = []) as Hid
    by (unfold id_field, field; by rewrite Hshort).
  split; [done|].
  unfold id_field, field in Hid. unfold loop_body.
  rewrite Hrec, bool_decide_true by done. by rewrite Hshort.
Qed.

Example empty_id_step_orphan :
  loop_body [] (lit "done") (lit "abc123") (lit "note") ([], false) (lit "orphan")
    = ([lit "done" ++ [HT; HT; HT; HT] ++ lit "abc123" ++ [HT] ++ lit "note"], true).
Proof.
  apply (empty_id_step (lit "done") (lit "abc123") (lit "note")
           [] false (lit "orphan")).
  - vm_compute. lia.
  - discriminate.
  - left. reflexivity.
Defined.

(** C10. With the empty [task_id], every record line of the file that has
    fewer than two tab-separated fields and holds a character that is not
    white space counts as a match after padding (its field 1 is then
    empty): a run that returns returns 0, not the lookup miss, and the
    text it writes holds at that line's index the record rewritten with
    [status], [commit] and [note]. *)
Theorem empty_id_rewrites_short_record (prog path status commit note : list N)
    (extra : list (list N)) (w w' : world) (content : list N)
    (i : nat) (line : list N) (code : Z) :
  files w !! path = Some content →
  file_lines content !! i = Some line →
  length (Py.split HT line) < 2 →
  head line ≠ Some HASH →
  Exists (λ c, Py.isspace c = false) line →
  main (prog :: path :: [] :: status :: commit :: note :: extra) w =
    (Return code, w') →
  id_field line = [] ∧
  code = 0%Z ∧
  ∃ updated,
    fold_left (loop_body [] status commit note) (file_lines content) ([], false)
      = (updated, true) ∧
    files w' = <[path:=Py.join [LF] updated ++ [LF]]> (files w) ∧
    length updated = length (file_lines content) ∧
    updated !! i = Some (Py.join [HT] [status; []; []; []; commit; note]).
Proof.
  intros Hfile Hi Hshort Hhash Hchar Hrun.
  assert (is_comment_or_blank line = false) as Hrec
    by (apply is_record_iff; split; [done | by apply not_whitespace_only]).
  destruct (empty_id_step status commit note [] false line Hshort Hhash Hchar)
    as [Hid Hstep].
  split; [done|].
  assert (existsb (matches []) (file_lines content) = true) as Hfound
    by (apply found_iff; eauto).
  destruct (main_returns _ _ _ _ _ _ _ _ _ _ _ Hfile Hrun)
    as [(-> & _ & _ & ->) | (_ & Hnone & _)]; [|congruence].
  split; [done|].
  exists (map (out_line [] status commit note) (file_lines content)).
  split; [by rewrite loop_fold, Hfound|].
  split; [done|]. split; [by rewrite length_map|].
  rewrite list_lookup_fmap, Hi. simpl. f_equal.
  unfold out_line. by rewrite Hstep.
Qed.

Lemma empty_id_rewrites_short_record_witness :
  let w := World {[ sample_path := orphan_queue ]} [] in
  let argv := sample_argv [] (lit "done") (lit "abc123") (lit "note") in
  fst (main argv w) = Return 0%Z ∧
  ∃ updated,
    files (snd (main argv w)) =
      <[sample_path:=Py.join [LF] updated ++ [LF]]> (files w) ∧
    updated !! 1 =
      Some (lit "done" ++ [HT; HT; HT; HT] ++ lit "abc123" ++ [HT] ++ lit "note").
Proof.
  intros w argv.
  destruct (empty_id_rewrites_short_record (lit "lint-queue-update.py")
              sample_path (lit "done") (lit "abc123") (lit "note") []
              w (snd (main argv w)) orphan_queue 1 (lit "orphan") 0%Z)
    as (_ & _ & updated & _ & Hfiles & _ & Hline);
    try (vm_compute; reflexivity).
  - discriminate.
  - left. reflexivity.
  - split; [vm_compute; reflexivity|].
    exists updated. split; [exact Hfiles | exact Hline].
Defined.

(** ** Updating the matching records *)

(** C8. When two or more record lines carry [task_id] in their id field, a
    run that returns returns 0, and the text it writes holds, at the index
    of every such line, that record with fields 0, 4 and 5 replaced by
    [status], [commit] and [note]: every duplicate is rewritten. *)
Theorem duplicates_all_updated (prog path task_id status commit note : list N)
    (extra : list (list N)) (w w' : world) (content : list N)
    (i j : nat) (li lj : list N) (code : Z) :
  files w !! path = Some content →
  i ≠ j →
  file_lines content !! i = Some li →
  is_comment_or_blank li = false → id_field li = task_id →
  file_lines content !! j = Some lj →
  is_comment_or_blank lj = false → id_field lj = task_id →
  main (prog :: path :: task_id :: status :: commit :: note :: extra) w =
    (Return code, w') →
  code = 0%Z ∧
  ∃ updated,
    files w' = <[path:=Py.join [LF] updated ++ [LF]]> (files w) ∧
    length updated = length (file_lines content) ∧
    ∀ k line,
      file_lines content !! k = Some line →
      is_comment_or_blank line = false → id_field line = task_id →
      updated !! k =
        Some (Py.join [HT] [status; id_field line; field 2 line; field 3 line;
                            commit; note]).
Proof.
  intros Hfile _ Hi Hreci Hidi _ _ _ Hrun.
  destruct (main_returns _ _ _ _ _ _ _ _ _ _ _ Hfile Hrun)
    as [(-> & _ & _ & ->) | (_ & Hnone & _)].
  - split; [done|].
    exists (map (out_line task_id status commit note) (file_lines content)).
    split; [done|]. split; [by rewrite length_map|].
    intros k line Hk Hrec Hid.
    rewrite list_lookup_fmap, Hk. simpl. f_equal.
    rewrite Hid. apply out_line_match. by apply matches_iff.
  - apply not_true_iff_false in Hnone. destruct Hnone.
    apply found_iff. eauto.
Qed.

Lemma duplicates_all_updated_witness :
  let w := World {[ sample_path := dup_queue ]} [] in
  let argv := sample_argv (lit "T2") (lit "done") (lit "abc123") (lit "ok") in
  fst (main argv w) = Return 0%Z ∧
  ∃ updated,
    files (snd (main argv w)) =
      <[sample_path:=Py.join [LF] updated ++ [LF]]> (files w) ∧
    updated !! 0 =
      Some (lit "done" ++ [HT] ++ lit "T2" ++ [HT] ++ lit "x" ++ [HT] ++ lit "y"
              ++ [HT] ++ lit "abc123" ++ [HT] ++ lit "ok") ∧
    updated !! 2 =
      Some (lit "done" ++ [HT] ++ lit "T2" ++ [HT] ++ lit "z" ++ [HT; HT]
              ++ lit "abc123" ++ [HT] ++ lit "ok").
Proof.
  intros w argv.
  destruct (duplicates_all_updated (lit "lint-queue-update.py") sample_path
              (lit "T2") (lit "done") (lit "abc123") (lit "ok") []
              w (snd (main argv w)) dup_queue 0 2
              (lit "pending" ++ [HT] ++ lit "T2" ++ [HT] ++ lit "x" ++ [HT]
                 ++ lit "y" ++ [HT; HT])
              (lit "retry" ++ [HT] ++ lit "T2" ++ [HT] ++ lit "z") 0%Z)
    as (_ & updated & Hfiles & _ & Hall);
    try (vm_compute; reflexivity); [lia|].
  split; [vm_compute; reflexivity|].
  exists updated. split; [exact Hfiles|]. split.
  - apply (Hall 0 (lit "pending" ++ [HT] ++ lit "T2" ++ [HT] ++ lit "x" ++ [HT]
                      ++ lit "y" ++ [HT; HT])); vm_compute; reflexivity.
  - apply (Hall 2 (lit "retry" ++ [HT] ++ lit "T2" ++ [HT] ++ lit "z"));
      vm_compute; reflexivity.
Defined.

(** C2, the part that fails: with two fields on a record that does not
    match, the line written in its place is padded to six fields, so it
    differs from the input line. *)
Lemma single_match_counterexample :
  let w := World {[ sample_path := short_queue ]} [] in
  let argv := sample_argv (lit "T2") (lit "done") (lit "abc123") (lit "fixed bug") in
  List.filter (matches (lit "T2")) (file_lines short_queue) =
    [lit "pending" ++ [HT] ++ lit "T2" ++ [HT] ++ lit "x" ++ [HT] ++ lit "y"
       ++ [HT; HT]] ∧
  fst (main argv w) = Return 0%Z ∧
  file_lines short_queue !! 0 = Some (lit "todo" ++ [HT] ++ lit "T1") ∧
  (file_lines <$> files (snd (main argv w)) !! sample_path) =
    Some [lit "todo" ++ [HT] ++ lit "T1" ++ [HT; HT; HT; HT];
          lit "done" ++ [HT] ++ lit "T2" ++ [HT] ++ lit "x" ++ [HT] ++ lit "y"
            ++ [HT] ++ lit "abc123" ++ [HT] ++ lit "fixed bug"] ∧
  ¬ (∀ data l,
       files (snd (main argv w)) !! sample_path = Some data →
       file_lines short_queue !! 0 = Some l →
       file_lines data !! 0 = Some l).
Proof.
  intros w argv.
  split; [vm_compute; reflexivity|]. split; [vm_compute; reflexivity|].
  split; [vm_compute; reflexivity|]. split; [vm_compute; reflexivity|].
  intros H.
  specialize (H _ (lit "todo" ++ [HT] ++ lit "T1")
                ltac:(vm_compute; reflexivity) ltac:(vm_compute; reflexivity)).
  vm_compute in H. discriminate H.
Qed.

(** C2, amended.  When exactly one record line carries [task_id], a run
    that returns returns 0 and writes a sequence as long as the input in
    which that record has fields 0, 4 and 5 replaced by [status], [commit]
    and [note]; every comment or blank line is the input line; every other
    record line is its own fields padded or cut to six, hence the input
    line itself when that line has exactly six fields. *)
Theorem single_match_update (prog path task_id status commit note : list N)
    (extra : list (list N)) (w w' : world) (content : list N)
    (i : nat) (line : list N) (code : Z) :
  files w !! path = Some content →
  file_lines content !! i = Some line →
  is_comment_or_blank line = false → id_field line = task_id →
  (∀ j l, file_lines content !! j = Some l →
          is_comment_or_blank l = false → id_field l = task_id → j = i) →
  main (prog :: path :: task_id :: status :: commit :: note :: extra) w =
    (Return code, w') →
  code = 0%Z ∧
  ∃ updated,
    files w' = <[path:=Py.join [LF] updated ++ [LF]]> (files w) ∧
    length updated = length (file_lines content) ∧
    updated !! i =
      Some (Py.join [HT] [status; id_field line; field 2 line; field 3 line;
                          commit; note]) ∧
    ∀ j l,
      j ≠ i → file_lines content !! j = Some l →
      (is_comment_or_blank l = true → updated !! j = Some l) ∧
      (is_comment_or_blank l = false →
       updated !! j = Some (Py.join [HT] (take 6 (pad (Py.split HT l))))) ∧
      (length (Py.split HT l) = 6 → updated !! j = Some l).
Proof.
  intros Hfile Hi Hrec Hid Huniq Hrun.
  destruct (main_returns _ _ _ _ _ _ _ _ _ _ _ Hfile Hrun)
    as [(-> & _ & _ & ->) | (_ & Hnone & _)]; cycle 1.
  { apply not_true_iff_false in Hnone. destruct Hnone. apply found_iff. eauto. }
  split; [done|].
  exists (map (out_line task_id status commit note) (file_lines content)).
  split; [done|]. split; [by rewrite length_map|]. split.
  { rewrite list_lookup_fmap, Hi. simpl. f_equal.
    rewrite Hid. apply out_line_match. by apply matches_iff. }
  intros j l Hj Hl. rewrite list_lookup_fmap, Hl. simpl.
  assert (is_comment_or_blank l = false →
          out_line task_id status commit note l =
            Py.join [HT] (take 6 (pad (Py.split HT l)))) as Hother.
  { intros Hr. apply out_line_other; [done|].
    apply not_true_iff_false. intros [_ Hm]%matches_iff. eauto. }
  split; [|split].
  - intros Hc. f_equal. by apply out_line_verbatim.
  - intros Hr. f_equal. by apply Hother.
  - intros Hsix. f_equal.
    destruct (is_comment_or_blank l) eqn:Hc; [by apply out_line_verbatim|].
    rewrite Hother by done. rewrite pad_six by done.
    rewrite <- Hsix, firstn_all. apply join_split.
Qed.

Lemma single_match_update_witness :
  let w := World {[ sample_path := short_queue ]} [] in
  let argv := sample_argv (lit "T2") (lit "done") (lit "abc123") (lit "fixed bug") in
  ∃ updated,
    files (snd (main argv w)) =
      <[sample_path:=Py.join [LF] updated ++ [LF]]> (files w) ∧
    updated !! 1 =
      Some (lit "done" ++ [HT] ++ lit "T2" ++ [HT] ++ lit "x" ++ [HT] ++ lit "y"
              ++ [HT] ++ lit "abc123" ++ [HT] ++ lit "fixed bug").
Proof.
  intros w argv.
  destruct (single_match_update (lit "lint-queue-update.py") sample_path
              (lit "T2") (lit "done") (lit "abc123") (lit "fixed bug") []
              w (snd (main argv w)) short_queue 1
              (lit "pending" ++ [HT] ++ lit "T2" ++ [HT] ++ lit "x" ++ [HT]
                 ++ lit "y" ++ [HT; HT]) 0%Z)
    as (_ & updated & Hfiles & _ & Hline & _);
    try (vm_compute; reflexivity).
  - intros j l Hj _ Hid.
    destruct j as [|[|j]]; [|done|].
    + vm_compute in Hj. injection Hj as <-. vm_compute in Hid. discriminate Hid.
    + vm_compute in Hj. discriminate Hj.
  - exists updated. split; [exact Hfiles | exact Hline].
Defined.

(** ** Six fields on every written record *)

(** Outside the argument contract the format desyncs, as the script's
    documentation warns: a tab inside [status] is written as it is, and
    the rewritten record reads back with seven fields. *)
Lemma tab_in_status_desyncs :
  let argv := sample_argv (lit "T2") (lit "do" ++ [HT] ++ lit "ne")
                (lit "abc123") (lit "fixed bug") in
  fst (main argv sample_world) = Return 0%Z ∧
  ∃ data l,
    files (snd (main argv sample_world)) !! sample_path = Some data ∧
    file_lines data !! 2 = Some l ∧
    is_comment_or_blank l = false ∧
    length (Py.split HT l) = 7.
Proof.
  intros argv. split; [vm_compute; reflexivity|].
  eexists _, _. split; [vm_compute; reflexivity|].
  split; [vm_compute; reflexivity|].
  split; vm_compute; reflexivity.
Qed.

(** C3.  Under the argument contract ([status], [commit] and [note] hold
    no tab and no line boundary), after a run that returns 0 the written
    file has as many
    lines as the input, each of its record lines has exactly six
    tab-separated fields, and the line written for an input record holds
    that record's fields 0 to 5, an absent one as the empty string and
    any further one dropped, with fields 0, 4 and 5 replaced when the
    record matches. *)
Theorem six_fields_written (prog path task_id status commit note : list N)
    (extra : list (list N)) (w w' : world) (content : list N) :
  files w !! path = Some content →
  no_tab status → no_tab commit → no_tab note →
  no_break status → no_break commit → no_break note →
  main (prog :: path :: task_id :: status :: commit :: note :: extra) w =
    (Return 0%Z, w') →
  ∃ data,
    files w' !! path = Some data ∧
    length (file_lines data) = length (file_lines content) ∧
    (∀ l, l ∈ file_lines data →
          is_comment_or_blank l = false → length (Py.split HT l) = 6) ∧
    (∀ k l,
       file_lines content !! k = Some l → is_comment_or_blank l = false →
       ∃ o,
         file_lines data !! k = Some o ∧
         let f m := default [] (Py.split HT l !! m) in
         Py.split HT o =
           if bool_decide (f 1 = task_id)
           then [status; f 1; f 2; f 3; commit; note]
           else [f 0; f 1; f 2; f 3; f 4; f 5]).
Proof.
  intros Hfile Hts Htc Htn Hbs Hbc Hbn Hrun.
  destruct (main_returns _ _ _ _ _ _ _ _ _ _ _ Hfile Hrun)
    as [(_ & Hfound & _ & ->) | (? & _)]; [|done].
  exists (new_content task_id status commit note content).
  split; [apply lookup_insert_eq|].
  rewrite written_lines by eauto using existsb_matches_not_nil.
  split; [by rewrite length_map|]. split.
  - intros o (l & -> & Hl)%list_elem_of_fmap Ho.
    destruct (is_comment_or_blank l) eqn:Hrec.
    + rewrite out_line_verbatim in Ho by done. congruence.
    + rewrite split_out_line by done. apply out_fields_length.
  - intros k l Hk Hrec. eexists. split.
    + rewrite list_lookup_fmap, Hk. reflexivity.
    + cbv zeta. rewrite split_out_line by done.
      unfold out_fields. rewrite matches_record by done.
      by rewrite !field_unpadded.
Qed.

Lemma six_fields_written_witness :
  let argv := sample_argv (lit "T2") (lit "done") (lit "abc123") (lit "fixed bug") in
  ∃ data,
    files (snd (main argv sample_world)) !! sample_path = Some data ∧
    ∀ l, l ∈ file_lines data →
         is_comment_or_blank l = false → length (Py.split HT l) = 6.
Proof.
  intros argv.
  destruct (six_fields_written (lit "lint-queue-update.py") sample_path
              (lit "T2") (lit "done") (lit "abc123") (lit "fixed bug") []
              sample_world (snd (main argv sample_world)) sample_queue)
    as (data & Hdata & _ & Hsix & _);
    try (vm_compute; reflexivity);
    try (unfold no_tab; vm_compute; intros Hin;
         repeat (apply elem_of_cons in Hin as [Hin|Hin]; [discriminate Hin|]);
         by apply elem_of_nil in Hin);
    try (repeat constructor).
  exists data. split; [exact Hdata | exact Hsix].
Defined.

(** ** Applying the update twice *)

(** C5, the part that fails: a [status] that starts with [#] turns the
    rewritten record into a comment line, so the second application finds
    no record and returns 1. *)
Lemma update_twice_counterexample :
  let argv := sample_argv (lit "T2") (lit "#done") (lit "abc123") (lit "fixed bug") in
  fst (main argv sample_world) = Return 0%Z ∧
  fst (main argv (snd (main argv sample_world))) = Return 1%Z.
Proof.
  intros argv. split; vm_compute; reflexivity.
Qed.

(** C5, amended.  Provided [status], [commit] and [note] hold no tab and no
    line boundary, [status] does not start with [#], and [status],
    [task_id], [commit] and [note] are not all white space: when a first
    application returns 0, a second one with the same arguments returns 0
    too and leaves every file as the first one left it. *)
Theorem update_idempotent (prog path task_id status commit note : list N)
    (extra : list (list N)) (w w1 : world) (content : list N) :
  files w !! path = Some content →
  no_tab status → no_tab commit → no_tab note →
  no_break status → no_break commit → no_break note →
  head status ≠ Some HASH →
  ¬ whitespace_only (status ++ task_id ++ commit ++ note) →
  main (prog :: path :: task_id :: status :: commit :: note :: extra) w =
    (Return 0%Z, w1) →
  ∃ w2,
    main (prog :: path :: task_id :: status :: commit :: note :: extra) w1 =
      (Return 0%Z, w2) ∧
    files w2 = files w1.
Proof.
  intros Hfile Hts Htc Htn Hbs Hbc Hbn Hhash Hws Hrun.
  destruct (main_returns _ _ _ _ _ _ _ _ _ _ _ Hfile Hrun)
    as [(_ & Hfound & Henc & ->) | (? & _)]; [|done].
  set (data := new_content task_id status commit note content) in *.
  assert (file_lines data =
          map (out_line task_id status commit note) (file_lines content)) as Hlines
    by (apply written_lines; eauto using existsb_matches_not_nil).
  assert (new_content task_id status commit note data = data) as Hsame.
  { unfold new_content at 1. rewrite Hlines, map_map.
    unfold data, new_content. do 2 f_equal.
    apply map_ext. intros l. by apply out_line_idem. }
  assert (existsb (matches task_id) (file_lines data) = true) as Hagain.
  { rewrite Hlines. apply existsb_exists in Hfound as (l & Hin & Hm).
    apply existsb_exists. exists (out_line task_id status commit note l).
    split; [by apply in_map | by apply rewritten_match_matches]. }
  eexists. split.
  - rewrite (main_run _ _ _ _ _ _ _ _ data) by apply lookup_insert_eq.
    rewrite Hagain, Hsame. unfold mbind, io_bind, write_text.
    rewrite Henc. reflexivity.
  - simpl. apply insert_insert_eq.
Qed.

Lemma update_idempotent_witness :
  let argv := sample_argv (lit "T2") (lit "done") (lit "abc123") (lit "fixed bug") in
  let w1 := snd (main argv sample_world) in
  ∃ w2, main argv w1 = (Return 0%Z, w2) ∧ files w2 = files w1.
Proof.
  intros argv w1.
  apply (update_idempotent (lit "lint-queue-update.py") sample_path
           (lit "T2") (lit "done") (lit "abc123") (lit "fixed bug") []
           sample_world w1 sample_queue);
    try (vm_compute; reflexivity);
    try (unfold no_tab; vm_compute; intros Hin;
         repeat (apply elem_of_cons in Hin as [Hin|Hin]; [discriminate Hin|]);
         by apply elem_of_nil in Hin);
    try (repeat constructor).
  - discriminate.
  - intros Hall. apply Forall_inv in Hall. vm_compute in Hall. discriminate Hall.
Defined.

(** ** Every way a run can end *)

Section outcomes.
Variable argv : list (list N).
Variable w : world.

Local Abbreviation path := (argv_at argv 1).
Local Abbreviation task_id := (argv_at argv 2).
Local Abbreviation text :=
  (new_content (argv_at argv 2) (argv_at argv 3) (argv_at argv 4) (argv_at argv 5)).

Lemma argv_six :
  6 ≤ length argv →
  ∃ prog extra,
    argv = prog :: argv_at argv 1 :: argv_at argv 2 :: argv_at argv 3
             :: argv_at argv 4 :: argv_at argv 5 :: extra.
Proof.
  intros H. destruct argv as [|a0 [|a1 [|a2 [|a3 [|a4 [|a5 rest]]]]]];
    simpl in H; try lia.
  by exists a0, rest.
Qed.

(** The five outcomes of [main]: usage error, unreadable file, lookup
    miss, update written, update that cannot be encoded. *)
Lemma main_outcome :
  length argv < 6 ∧
    main argv w =
      (Return 2%Z, World (files w) (trace w ++ [ev_stderr (usage ++ [LF])]))
  ∨ 6 ≤ length argv ∧ files w !! path = None ∧
    main argv w = (Raise OSError, World (files w) (trace w ++ [ev_read path]))
  ∨ (∃ content,
       6 ≤ length argv ∧ files w !! path = Some content ∧
       existsb (matches task_id) (file_lines content) = false ∧
       main argv w =
         (Return 1%Z,
          World (files w)
            (trace w ++ [ev_read path;
                         ev_stderr (lit "Task id not found: " ++ task_id ++ [LF])])))
  ∨ (∃ content,
       6 ≤ length argv ∧ files w !! path = Some content ∧
       existsb (matches task_id) (file_lines content) = true ∧
       forallb Py.encodable (text content) = true ∧
       main argv w =
         (Return 0%Z,
          World (<[path:=text content]> (files w))
            (trace w ++ [ev_read path; ev_write path (text content)])))
  ∨ (∃ content,
       6 ≤ length argv ∧ files w !! path = Some content ∧
       existsb (matches task_id) (file_lines content) = true ∧
       forallb Py.encodable (text content) = false ∧
       main argv w =
         (Raise UnicodeEncodeError,
          World (<[path:=[]]> (files w))
            (trace w ++ [ev_read path; ev_write path (text content)]))).
Proof.
  destruct (decide (length argv < 6)) as [Hlt|Hge].
  { left. split; [done|]. unfold main. by rewrite bool_decide_true. }
  right. assert (6 ≤ length argv) as Hlen by lia.
  destruct (files w !! path) as [content|] eqn:Hfile.
  - right. destruct (argv_six Hlen) as (prog & extra & Hargv).
    pose proof (main_run prog path task_id (argv_at argv 3) (argv_at argv 4)
                  (argv_at argv 5) extra w content Hfile) as Hrun.
    rewrite <- Hargv in Hrun.
    destruct (existsb _ _) eqn:Hfound.
    + right. unfold mbind, io_bind, write_text in Hrun.
      destruct (forallb _ _) eqn:Henc; [left | right];
        exists content; repeat (split; [done|]);
        rewrite Hrun; unfold emit, mret, io_ret; simpl;
        by rewrite <- app_assoc.
    + left. exists content. repeat (split; [done|]).
      rewrite Hrun. unfold emit; simpl. by rewrite <- app_assoc.
  - left. split; [done|]. split; [done|].
    unfold main. rewrite bool_decide_false by lia.
    unfold mbind, io_bind, read_text. by rewrite Hfile.
Qed.

End outcomes.

(** ** Failures, exit codes and what a run may touch *)

(** X1. When the queue file cannot be read, [main] raises right after the
    attempt to read it: nothing is printed, nothing is written and the
    store is unchanged. *)
Theorem unreadable_file (argv : list (list N)) (w : world) :
  6 ≤ length argv →
  files w !! argv_at argv 1 = None →
  main argv w =
    (Raise OSError, World (files w) (trace w ++ [ev_read (argv_at argv 1)])).
Proof.
  intros Hlen Hnone.
  destruct (main_outcome argv w)
    as [[? _] | [(_ & _ & ->) | [(c & _ & H & _) | [(c & _ & H & _) | (c & _ & H & _)]]]];
    first [lia | done | congruence].
Qed.

Lemma unreadable_file_witness :
  main (sample_argv (lit "T2") (lit "done") (lit "abc123") (lit "ok"))
       (World ∅ []) =
    (Raise OSError, World ∅ [ev_read sample_path]).
Proof.
  apply (unreadable_file
           (sample_argv (lit "T2") (lit "done") (lit "abc123") (lit "ok"))
           (World ∅ [])).
  - simpl. lia.
  - reflexivity.
Defined.

(** X2. [main] returns no code but 0, 1 and 2, and it returns 2 exactly
    when fewer than five arguments follow the program name. *)
Theorem exit_codes (argv : list (list N)) (w w' : world) (code : Z) :
  main argv w = (Return code, w') →
  (code = 0%Z ∨ code = 1%Z ∨ code = 2%Z) ∧ (code = 2%Z ↔ length argv < 6).
Proof.
  intros Hrun.
  destruct (main_outcome argv w)
    as [[? H] | [(? & _ & H) | [(c & ? & _ & _ & H)
        | [(c & ? & _ & _ & _ & H) | (c & ? & _ & _ & _ & H)]]]];
    rewrite H in Hrun; simplify_eq; (split; [tauto | split; (lia || done)]).
Qed.

Lemma exit_codes_witness :
  let argv := sample_argv (lit "T9") (lit "done") (lit "abc123") (lit "ok") in
  (1%Z = 0%Z ∨ 1%Z = 1%Z ∨ 1%Z = 2%Z) ∧ (1%Z = 2%Z ↔ length argv < 6).
Proof.
  intros argv.
  apply (exit_codes argv sample_world (snd (main argv sample_world)) 1%Z).
  vm_compute. reflexivity.
Defined.

(** X3. Whatever the arguments and however the run ends, no file other
    than the one named by the first argument changes. *)
Theorem other_files_untouched (argv : list (list N)) (w : world) (q : list N) :
  q ≠ argv_at argv 1 →
  files (snd (main argv w)) !! q = files w !! q.
Proof.
  intros Hq.
  destruct (main_outcome argv w)
    as [[? H] | [(? & _ & H) | [(c & ? & _ & _ & H)
        | [(c & ? & _ & _ & _ & H) | (c & ? & _ & _ & _ & H)]]]];
    rewrite H; simpl; try done; by rewrite lookup_insert_ne.
Qed.

Lemma other_files_untouched_witness :
  let w := World {[ sample_path := sample_queue; lit "other.tsv" := dup_queue ]} [] in
  let argv := sample_argv (lit "T2") (lit "done") (lit "abc123") (lit "ok") in
  files (snd (main argv w)) !! lit "other.tsv" = Some dup_queue.
Proof.
  intros w argv.
  rewrite (other_files_untouched argv w (lit "other.tsv")).
  - reflexivity.
  - vm_compute. discriminate.
Defined.

(** X4. A run that returns a code other than 0 has changed no file and
    attempted no write: what it adds to the trace is the usage line alone,
    or the read followed by the diagnostic. *)
Theorem failure_writes_nothing (argv : list (list N)) (w w' : world) (code : Z) :
  main argv w = (Return code, w') →
  code ≠ 0%Z →
  files w' = files w ∧
  (trace w' = trace w ++ [ev_stderr (usage ++ [LF])]
   ∨ trace w' =
       trace w ++ [ev_read (argv_at argv 1);
                   ev_stderr (lit "Task id not found: " ++ argv_at argv 2 ++ [LF])]).
Proof.
  intros Hrun Hcode.
  destruct (main_outcome argv w)
    as [[? H] | [(? & _ & H) | [(c & ? & _ & _ & H)
        | [(c & ? & _ & _ & _ & H) | (c & ? & _ & _ & _ & H)]]]];
    rewrite H in Hrun; simplify_eq; simpl; auto.
Qed.

Lemma failure_writes_nothing_witness :
  let argv := sample_argv (lit "T9") (lit "done") (lit "abc123") (lit "ok") in
  files (snd (main argv sample_world)) = files sample_world.
Proof.
  intros argv.
  apply (failure_writes_nothing argv sample_world (snd (main argv sample_world)) 1%Z).
  - vm_compute. reflexivity.
  - discriminate.
Defined.

(** X5. Only the first five arguments count: the program name and any
    argument after the note change nothing in what [main] does. *)
Theorem extra_arguments_ignored (prog prog' path task_id status commit note : list N)
    (extra : list (list N)) (w : world) :
  main (prog :: path :: task_id :: status :: commit :: note :: extra) w =
  main [prog'; path; task_id; status; commit; note] w.
Proof.
  unfold main. rewrite !bool_decide_false by (simpl; lia). reflexivity.
Qed.

(** X13. The status the process ends with is 0, 1 or 2; a queue file that
    cannot be read gives status 1, the status of a lookup miss. *)
Theorem process_status (argv : list (list N)) (w : world) :
  6 ≤ length argv →
  (exit_status (fst (main argv w)) = 0%Z ∨ exit_status (fst (main argv w)) = 1%Z) ∧
  (files w !! argv_at argv 1 = None → exit_status (fst (main argv w)) = 1%Z) ∧
  (exit_status (fst (main argv w)) = 0%Z →
   ∃ content, files w !! argv_at argv 1 = Some content ∧
     files (snd (main argv w)) !! argv_at argv 1 =
       Some (new_content (argv_at argv 2) (argv_at argv 3) (argv_at argv 4)
               (argv_at argv 5) content)).
Proof.
  intros Hlen.
  destruct (main_outcome argv w)
    as [[? H] | [(? & Hnone & H) | [(c & ? & Hc & _ & H)
        | [(c & ? & Hc & _ & _ & H) | (c & ? & Hc & _ & _ & H)]]]];
    [lia| | | |]; rewrite H; simpl;
    (split; [tauto|]); (split; [intros ?; first [done | congruence]|]);
    try done.
  intros _. exists c. split; [done|]. apply lookup_insert_eq.
Qed.

Lemma process_status_witness :
  exit_status
    (fst (main (sample_argv (lit "T2") (lit "done") (lit "abc123") (lit "ok"))
            (World ∅ []))) = 1%Z.
Proof.
  apply (process_status
           (sample_argv (lit "T2") (lit "done") (lit "abc123") (lit "ok"))
           (World ∅ [])).
  - simpl. lia.
  - reflexivity.
Defined.

(** ** Where the characters of the written text come from *)

Section char_facts.

Lemma join_elem (sep : list N) (fs : list (list N)) (f : list N) c :
  f ∈ fs → c ∈ f → c ∈ Py.join sep fs.
Proof.
  induction fs as [|g fs IH]; [by intros ?%elem_of_nil|].
  intros Hf Hc. apply elem_of_cons in Hf as [->|Hf].
  - destruct fs; simpl; [done|]. apply elem_of_app. by left.
  - destruct fs as [|h fs]; [by apply elem_of_nil in Hf|].
    change (c ∈ g ++ sep ++ Py.join sep (h :: fs)).
    rewrite !elem_of_app. right. right. by apply IH.
Qed.

Lemma universal_newlines_chars (s : str) c :
  c ∈ Py.universal_newlines s → c = LF ∨ c ∈ s.
Proof.
  remember (length s) as n eqn:Hn.
  assert (length s ≤ n) as Hle by lia. clear Hn.
  revert s Hle. induction n as [|n IH]; intros [|d s] Hle; simpl in *;
    try (by intros ?%elem_of_nil); try lia.
  destruct (d =? CR)%N.
  - intros [->|Hc]%elem_of_cons; [by left|].
    destruct s as [|e s]; [by apply elem_of_nil in Hc|].
    destruct (e =? LF)%N.
    + apply IH in Hc as [->|Hc]; [by left | | simpl in *; lia].
      right. apply elem_of_cons; right. apply elem_of_cons; by right.
    + apply IH in Hc as [->|Hc]; [by left | | simpl in *; lia].
      right. apply elem_of_cons; by right.
  - intros [->|Hc]%elem_of_cons; [right; left|].
    apply IH in Hc as [->|Hc]; [by left | right; by right | lia].
Qed.

Lemma splitlines_chars (s : str) (l : list N) c :
  l ∈ Py.splitlines s → c ∈ l → c ∈ s.
Proof.
  remember (length s) as n eqn:Hn.
  assert (length s ≤ n) as Hle by lia. clear Hn.
  revert s l Hle. induction n as [|n IH]; intros [|d s] l Hle; simpl in *;
    try (by intros ?%elem_of_nil); try lia.
  destruct (Py.islinebreak d).
  - intros [->|Hl]%elem_of_cons Hc; [by apply elem_of_nil in Hc|].
    right. destruct s as [|e s]; [by apply elem_of_nil in Hl|].
    destruct ((d =? CR)%N && (e =? LF)%N).
    + right. apply (IH s l); [simpl in *; lia | done | done].
    + apply (IH (e :: s) l); [simpl in *; lia | done | done].
  - pose proof (IH s) as IHs.
    destruct (Py.splitlines s) as [|k ks].
    + intros ->%list_elem_of_singleton ->%list_elem_of_singleton. left.
    + intros [->|Hl]%elem_of_cons Hc.
      * apply elem_of_cons in Hc as [->|Hc]; [left|right].
        apply (IHs k); [lia | left | done].
      * right. apply (IHs l); [lia | by right | done].
Qed.

Lemma file_lines_chars (content : str) (l : list N) c :
  l ∈ file_lines content → c ∈ l → c ∈ content.
Proof.
  intros Hl Hc. pose proof (splitlines_chars _ _ _ Hl Hc) as H.
  apply universal_newlines_chars in H as [->|H]; [|done].
  pose proof (splitlines_no_break (Py.universal_newlines content)) as Hnb.
  rewrite Forall_forall in Hnb. apply Hnb in Hl.
  rewrite no_break_elem in Hl. by apply Hl in Hc.
Qed.

Variables task_id status commit note : list N.

Lemma out_line_chars (line : str) c :
  c ∈ out_line task_id status commit note line →
  c = HT ∨ c ∈ line ∨ c ∈ status ∨ c ∈ commit ∨ c ∈ note.
Proof.
  destruct (is_comment_or_blank line) eqn:Hrec.
  { rewrite out_line_verbatim by done. auto. }
  rewrite out_line_record by done.
  intros [->|(f & Hf & Hc)]%join_chars; [by left|]. right.
  unfold out_fields in Hf. destruct (matches task_id line);
    repeat (apply elem_of_cons in Hf as [->|Hf]);
    try (by apply elem_of_nil in Hf); eauto using field_chars.
Qed.

Lemma new_content_chars (content : str) c :
  c ∈ new_content task_id status commit note content →
  c = LF ∨ c = HT ∨ c ∈ content ∨ c ∈ status ∨ c ∈ commit ∨ c ∈ note.
Proof.
  unfold new_content. rewrite elem_of_app, list_elem_of_singleton.
  intros [[->|(o & Ho & Hc)]%join_chars | ->]; [by left | | by left].
  right. apply list_elem_of_fmap in Ho as (l & -> & Hl).
  apply out_line_chars in Hc as [->|[Hc|Hc]]; [by left | | tauto].
  right. left. by eapply file_lines_chars.
Qed.

(** What a match puts into the text. *)
Lemma new_content_has_arguments (content : str) c :
  existsb (matches task_id) (file_lines content) = true →
  c ∈ status ∨ c ∈ commit ∨ c ∈ note →
  c ∈ new_content task_id status commit note content.
Proof.
  intros (l & Hl & Hm)%existsb_exists Hc. apply list_elem_of_In in Hl.
  unfold new_content. apply elem_of_app. left.
  apply (join_elem _ _ (out_line task_id status commit note l)).
  - by apply list_elem_of_fmap_2.
  - rewrite out_line_match by done.
    destruct Hc as [Hc|[Hc|Hc]];
      [apply (join_elem _ _ status) | apply (join_elem _ _ commit)
       | apply (join_elem _ _ note)]; try done;
      rewrite !elem_of_cons; tauto.
Qed.

End char_facts.

(** ** Text that can and cannot be encoded *)

(** X6. If the file and [status], [commit], [note] hold only code points
    that UTF-8 can encode, so does the text [main] builds for the write,
    whatever [task_id] is: the run never raises [UnicodeEncodeError]. *)
Theorem encodable_inputs_encodable_text
    (prog path task_id status commit note : list N)
    (extra : list (list N)) (w : world) (content : list N) :
  files w !! path = Some content →
  forallb Py.encodable content = true →
  forallb Py.encodable (status ++ commit ++ note) = true →
  forallb Py.encodable (new_content task_id status commit note content) = true ∧
  fst (main (prog :: path :: task_id :: status :: commit :: note :: extra) w)
    ≠ Raise UnicodeEncodeError.
Proof.
  intros Hfile Hcontent Hargs.
  assert (forallb Py.encodable (new_content task_id status commit note content)
          = true) as Henc.
  { rewrite forallb_forall in Hcontent, Hargs. apply forallb_forall.
    intros c Hc. apply list_elem_of_In in Hc.
    apply new_content_chars in Hc as [->|[->|[Hc|Hc]]]; [done | done | |].
    - apply Hcontent. by apply list_elem_of_In.
    - apply Hargs. apply list_elem_of_In. rewrite !elem_of_app. tauto. }
  split; [done|].
  rewrite (main_run _ _ _ _ _ _ _ _ _ Hfile).
  destruct (existsb _ _); [|done].
  unfold mbind, io_bind, write_text. by rewrite Henc.
Qed.

Lemma encodable_inputs_encodable_text_witness :
  fst (main (sample_argv (lit "T2") (lit "done") (lit "abc123") (lit "ok"))
         (World {[ sample_path := dup_queue ]} [])) ≠ Raise UnicodeEncodeError.
Proof.
  apply (encodable_inputs_encodable_text (lit "lint-queue-update.py") sample_path
           (lit "T2") (lit "done") (lit "abc123") (lit "ok") []
           (World {[ sample_path := dup_queue ]} []) dup_queue);
    vm_compute; reflexivity.
Defined.

(** X7. If a record line carries [task_id] but [status], [commit] or
    [note] holds a code point that UTF-8 cannot encode (a lone surrogate),
    the run does not return: it raises, and it leaves the queue file as it
    was or empty.  The text it built is never reported as written. *)
Theorem unencodable_argument_never_returns
    (prog path task_id status commit note : list N)
    (extra : list (list N)) (w w' : world) (content : list N)
    (i : nat) (line : list N) (c : N) (r : result Z) :
  files w !! path = Some content →
  file_lines content !! i = Some line →
  is_comment_or_blank line = false → id_field line = task_id →
  c ∈ status ∨ c ∈ commit ∨ c ∈ note →
  Py.encodable c = false →
  main (prog :: path :: task_id :: status :: commit :: note :: extra) w = (r, w') →
  (∃ e, r = Raise e) ∧
  (files w' !! path = Some content ∨ files w' !! path = Some []).
Proof.
  intros Hfile Hi Hrec Hid Hc Hbad.
  rewrite (main_run _ _ _ _ _ _ _ _ _ Hfile).
  assert (existsb (matches task_id) (file_lines content) = true) as Hfound
    by (apply found_iff; eauto).
  rewrite Hfound.
  assert (forallb Py.encodable (new_content task_id status commit note content)
          = false) as Henc.
  { apply not_true_iff_false. rewrite forallb_forall. intros Hall.
    pose proof (new_content_has_arguments task_id status commit note content c
                  Hfound Hc) as Hin.
    apply list_elem_of_In, Hall in Hin. congruence. }
  unfold mbind, io_bind, write_text. rewrite Henc.
  intros [= <- <-]. split; [by eexists|].
  right. apply lookup_insert_eq.
Qed.

Lemma unencodable_argument_never_returns_witness :
  let r := main (sample_argv (lit "T2") [56448%N] (lit "abc123") (lit "ok"))
             sample_world in
  (∃ e, fst r = Raise e) ∧
  (files (snd r) !! sample_path = Some sample_queue
   ∨ files (snd r) !! sample_path = Some []).
Proof.
  intros r.
  apply (unencodable_argument_never_returns (lit "lint-queue-update.py")
           sample_path (lit "T2") [56448%N] (lit "abc123") (lit "ok") []
           sample_world (snd r) sample_queue 2
           (lit "pending" ++ [HT] ++ lit "T2" ++ [HT] ++ lit "x" ++ [HT]
              ++ lit "y" ++ [HT; HT]) 56448%N (fst r));
    try (vm_compute; reflexivity).
  left. left.
Defined.

(** X8. When [status], [commit] and [note] hold no line boundary, the text
    a successful run writes ends its lines with LF only and ends with LF:
    CR LF and every other boundary of the input are written as LF. *)
Theorem written_line_ends (prog path task_id status commit note : list N)
    (extra : list (list N)) (w w' : world) (content : list N) :
  files w !! path = Some content →
  no_break status → no_break commit → no_break note →
  main (prog :: path :: task_id :: status :: commit :: note :: extra) w =
    (Return 0%Z, w') →
  ∃ data,
    files w' !! path = Some data ∧
    last data = Some LF ∧
    ∀ c, c ∈ data → Py.islinebreak c = true → c = LF.
Proof.
  intros Hfile Hs Hc Hn Hrun.
  destruct (main_returns _ _ _ _ _ _ _ _ _ _ _ Hfile Hrun)
    as [(_ & _ & _ & ->) | (? & _)]; [|done].
  exists (new_content task_id status commit note content).
  split; [apply lookup_insert_eq|]. unfold new_content.
  split; [apply last_snoc|].
  intros c [[->|(o & Ho & Hco)]%join_chars | ->%list_elem_of_singleton]%elem_of_app
    Hbreak; [done | | done].
  apply list_elem_of_fmap in Ho as (l & -> & Hl).
  pose proof (splitlines_no_break (Py.universal_newlines content)) as Hnb.
  rewrite Forall_forall in Hnb. apply Hnb in Hl.
  pose proof (out_line_no_break task_id status commit note l Hs Hc Hn Hl) as Ho.
  rewrite no_break_elem in Ho. apply Ho in Hco. congruence.
Qed.

Lemma written_line_ends_witness :
  let w := World {[ sample_path := crlf_queue ]} [] in
  let argv := sample_argv (lit "T2") (lit "done") (lit "abc123") (lit "ok") in
  ∃ data,
    files (snd (main argv w)) !! sample_path = Some data ∧
    last data = Some LF ∧
    ∀ c, c ∈ data → Py.islinebreak c = true → c = LF.
Proof.
  intros w argv.
  apply (written_line_ends (lit "lint-queue-update.py") sample_path (lit "T2")
           (lit "done") (lit "abc123") (lit "ok") [] w (snd (main argv w))
           crlf_queue);
    try (vm_compute; reflexivity); repeat constructor.
Defined.

(** X10. A [task_id] that holds a tab or a line boundary equals no id
    field, so on a readable file the run ends as a lookup miss: code 1 and
    nothing written. *)
Theorem odd_task_id_never_found (prog path task_id status commit note : list N)
    (extra : list (list N)) (w : world) (content : list N) (c : N) :
  files w !! path = Some content →
  c ∈ task_id → c = HT ∨ Py.islinebreak c = true →
  main (prog :: path :: task_id :: status :: commit :: note :: extra) w =
    (Return 1%Z,
     World (files w)
       (trace w ++ [ev_read path;
                    ev_stderr (lit "Task id not found: " ++ task_id ++ [LF])])).
Proof.
  intros Hfile Hc Hodd. rewrite (main_run _ _ _ _ _ _ _ _ _ Hfile).
  assert (existsb (matches task_id) (file_lines content) = false) as ->.
  { apply not_true_iff_false. intros (l & Hl & Hm)%existsb_exists.
    apply list_elem_of_In in Hl. apply matches_iff in Hm as [_ Hid].
    subst task_id. unfold id_field in Hc. destruct Hodd as [->|Hbreak].
    - by apply (field_no_tab 1 l).
    - apply field_chars in Hc.
      pose proof (splitlines_no_break (Py.universal_newlines content)) as Hnb.
      rewrite Forall_forall in Hnb. apply Hnb in Hl.
      rewrite no_break_elem in Hl. apply Hl in Hc. congruence. }
  unfold emit; simpl. by rewrite <- app_assoc.
Qed.

Lemma odd_task_id_never_found_witness :
  fst (main (sample_argv (lit "T2" ++ [HT]) (lit "done") (lit "abc123") (lit "ok"))
         sample_world) = Return 1%Z.
Proof.
  unfold sample_argv.
  rewrite (odd_task_id_never_found (lit "lint-queue-update.py") sample_path
             (lit "T2" ++ [HT]) (lit "done") (lit "abc123") (lit "ok") []
             sample_world sample_queue HT).
  - reflexivity.
  - reflexivity.
  - vm_compute. do 2 right. left.
  - by left.
Defined.

(** ** One update after another *)

Section overwrite.
Variables task_id s1 c1 n1 s2 c2 n2 : list N.
Hypothesis s1_no_tab : no_tab s1.
Hypothesis c1_no_tab : no_tab c1.
Hypothesis n1_no_tab : no_tab n1.
Hypothesis s1_no_hash : head s1 ≠ Some HASH.
Hypothesis first_not_blank : ¬ whitespace_only (s1 ++ task_id ++ c1 ++ n1).

Local Abbreviation out1 := (out_line task_id s1 c1 n1).
Local Abbreviation out2 := (out_line task_id s2 c2 n2).

(** Rewriting a line the first update wrote gives what the second update
    makes of the original line. *)
Lemma out_line_overwrite (line : str) : out2 (out1 line) = out2 line.
Proof.
  destruct (is_comment_or_blank line) eqn:Hrec.
  { by rewrite (out_line_verbatim _ s1 c1 n1 line Hrec). }
  destruct (matches task_id line) eqn:Hm.
  - pose proof (rewritten_match_matches task_id s1 c1 n1 s1_no_tab c1_no_tab
                  n1_no_tab line Hm s1_no_hash first_not_blank) as Hm1.
    rewrite (out_line_match _ s2 c2 n2 _ Hm1), (out_line_match _ s2 c2 n2 _ Hm).
    rewrite !field_out_line by done.
    unfold out_fields. by rewrite Hm.
  - assert (out1 line = out2 line) as Heq by by rewrite !out_line_other.
    destruct (is_comment_or_blank (out1 line)) eqn:Hout.
    + rewrite (out_line_verbatim _ s2 c2 n2 _ Hout). done.
    + pose proof (matches_out_line task_id s1 c1 n1 s1_no_tab c1_no_tab
                    n1_no_tab line Hrec Hout) as Hm1.
      rewrite Hm in Hm1.
      rewrite (out_line_other _ s2 c2 n2 _ Hout Hm1).
      rewrite <- (out_line_other _ s1 c1 n1 _ Hout Hm1).
      by rewrite out_line_idem.
Qed.

Lemma found_after_update (lines : list (list N)) :
  existsb (matches task_id) lines = true →
  existsb (matches task_id) (map out1 lines) = true.
Proof.
  intros (l & Hin & Hm)%existsb_exists. apply existsb_exists.
  exists (out1 l). split; [by apply in_map | by apply rewritten_match_matches].
Qed.

End overwrite.

(** X9. The later update wins.  Let a first update of [task_id] return 0,
    its [status], [commit] and [note] holding no tab and no line boundary,
    its [status] not starting with [#], and not all of the four white
    space.  Then a second update of the same [task_id], with any values,
    ends as it would have on the original file and leaves the same files:
    nothing of the first update's three values remains. *)
Theorem later_update_wins (prog path task_id s1 c1 n1 s2 c2 n2 : list N)
    (extra : list (list N)) (w w1 : world) (content : list N) :
  files w !! path = Some content →
  no_tab s1 → no_tab c1 → no_tab n1 →
  no_break s1 → no_break c1 → no_break n1 →
  head s1 ≠ Some HASH →
  ¬ whitespace_only (s1 ++ task_id ++ c1 ++ n1) →
  main (prog :: path :: task_id :: s1 :: c1 :: n1 :: extra) w = (Return 0%Z, w1) →
  fst (main (prog :: path :: task_id :: s2 :: c2 :: n2 :: extra) w1) =
    fst (main (prog :: path :: task_id :: s2 :: c2 :: n2 :: extra) w) ∧
  files (snd (main (prog :: path :: task_id :: s2 :: c2 :: n2 :: extra) w1)) =
    files (snd (main (prog :: path :: task_id :: s2 :: c2 :: n2 :: extra) w)).
Proof.
  intros Hfile Hts Htc Htn Hbs Hbc Hbn Hhash Hws Hrun.
  destruct (main_returns _ _ _ _ _ _ _ _ _ _ _ Hfile Hrun)
    as [(_ & Hfound & _ & ->) | (? & _)]; [|done].
  set (data := new_content task_id s1 c1 n1 content) in *.
  assert (file_lines data = map (out_line task_id s1 c1 n1) (file_lines content))
    as Hlines by (apply written_lines; eauto using existsb_matches_not_nil).
  assert (new_content task_id s2 c2 n2 data = new_content task_id s2 c2 n2 content)
    as Hsame.
  { unfold new_content at 1. rewrite Hlines, map_map.
    unfold new_content. do 2 f_equal.
    apply map_ext. intros l. by apply out_line_overwrite. }
  rewrite (main_run _ _ _ _ _ _ _ _ data) by apply lookup_insert_eq.
  rewrite (main_run _ _ _ _ _ _ _ _ content Hfile).
  rewrite Hlines, found_after_update, Hfound, Hsame by done.
  unfold mbind, io_bind, write_text.
  destruct (forallb _ _); simpl; (split; [done | apply insert_insert_eq]).
Qed.

Lemma later_update_wins_witness :
  let first := sample_argv (lit "T2") (lit "wip") (lit "aaa111") (lit "started") in
  let second := sample_argv (lit "T2") (lit "done") (lit "abc123") (lit "fixed bug") in
  let w1 := snd (main first sample_world) in
  fst (main second w1) = fst (main second sample_world) ∧
  files (snd (main second w1)) = files (snd (main second sample_world)).
Proof.
  intros first second w1.
  apply (later_update_wins (lit "lint-queue-update.py") sample_path (lit "T2")
           (lit "wip") (lit "aaa111") (lit "started")
           (lit "done") (lit "abc123") (lit "fixed bug") []
           sample_world w1 sample_queue);
    try (vm_compute; reflexivity);
    try (unfold no_tab; vm_compute; intros Hin;
         repeat (apply elem_of_cons in Hin as [Hin|Hin]; [discriminate Hin|]);
         by apply elem_of_nil in Hin);
    try (repeat constructor).
  - discriminate.
  - intros Hall. apply Forall_inv in Hall. vm_compute in Hall. discriminate Hall.
Defined.

(** ** What padding and cutting do to the text of a line *)

Section reshape.
Variable sep : N.

Lemma join_app (a b : list (list N)) :
  a ≠ [] → b ≠ [] →
  Py.join [sep] (a ++ b) = Py.join [sep] a ++ sep :: Py.join [sep] b.
Proof.
  induction a as [|x a IH]; [done|]. intros _ Hb.
  destruct a as [|y a].
  - destruct b; [done|]. reflexivity.
  - change (Py.join [sep] ((x :: y :: a) ++ b))
      with (x ++ [sep] ++ Py.join [sep] ((y :: a) ++ b)).
    rewrite IH by done.
    change (Py.join [sep] (x :: y :: a)) with (x ++ [sep] ++ Py.join [sep] (y :: a)).
    by rewrite <- !app_assoc.
Qed.

Lemma join_empties k : Py.join [sep] (replicate (S k) []) = replicate k sep.
Proof.
  induction k as [|k IH]; [done|].
  change (Py.join [sep] (replicate (S (S k)) []))
    with ([] ++ [sep] ++ Py.join [sep] (replicate (S k) [])).
  by rewrite IH.
Qed.

Lemma join_padded (parts : list (list N)) k :
  parts ≠ [] →
  Py.join [sep] (parts ++ replicate k []) = Py.join [sep] parts ++ replicate k sep.
Proof.
  intros Hne. destruct k as [|k]; [by rewrite !app_nil_r|].
  rewrite join_app, join_empties; done.
Qed.

End reshape.

(** X11. A record line with at most six fields that does not match is
    written as the line itself followed by one tab for every field it
    lacks; this holds for every line that is neither blank nor headed by
    [#], an indented comment included. *)
Theorem short_record_gains_tabs (task_id status commit note : list N)
    (updated : list (list N)) (found : bool) (line : list N) :
  is_comment_or_blank line = false →
  id_field line ≠ task_id →
  length (Py.split HT line) ≤ 6 →
  loop_body task_id status commit note (updated, found) line =
    (updated ++ [line ++ replicate (6 - length (Py.split HT line)) HT], found).
Proof.
  intros Hrec Hid Hlen. rewrite loop_body_eq.
  assert (matches task_id line = false) as Hm
    by (apply not_true_iff_false; intros [_ ?]%matches_iff; congruence).
  rewrite Hm, orb_false_r, out_line_other by done. do 3 f_equal.
  assert (length (pad (Py.split HT line)) = 6) as Hsix.
  { unfold pad. case_bool_decide; [|lia].
    rewrite length_app, length_replicate. lia. }
  rewrite take_ge by lia. unfold pad. case_bool_decide.
  - rewrite join_padded by apply split_not_nil. by rewrite join_split.
  - replace (6 - length (Py.split HT line)) with 0 by lia.
    by rewrite join_split, app_nil_r.
Qed.

Lemma short_record_gains_tabs_witness :
  loop_body (lit "T2") (lit "done") (lit "abc123") (lit "ok") ([], false)
    (lit "  # indented" ++ [HT] ++ lit "note")
  = ([lit "  # indented" ++ [HT] ++ lit "note" ++ [HT; HT; HT; HT]], false).
Proof.
  apply (short_record_gains_tabs (lit "T2") (lit "done") (lit "abc123") (lit "ok")
           [] false (lit "  # indented" ++ [HT] ++ lit "note")).
  - vm_compute. reflexivity.
  - vm_compute. discriminate.
  - vm_compute. lia.
Defined.

(** X12. A record line with more than six fields that does not match is
    cut at its sixth tab: what is written is the part of the line before
    that tab, and it reads back as six fields. *)
Theorem long_record_is_cut (task_id status commit note : list N)
    (updated : list (list N)) (found : bool) (line : list N) :
  is_comment_or_blank line = false →
  id_field line ≠ task_id →
  6 < length (Py.split HT line) →
  ∃ kept dropped,
    line = kept ++ HT :: dropped ∧
    length (Py.split HT kept) = 6 ∧
    loop_body task_id status commit note (updated, found) line =
      (updated ++ [kept], found).
Proof.
  intros Hrec Hid Hlen.
  exists (Py.join [HT] (take 6 (Py.split HT line))),
         (Py.join [HT] (drop 6 (Py.split HT line))).
  split; [|split].
  - rewrite <- join_app.
    + by rewrite take_drop, join_split.
    + destruct (Py.split HT line); simpl in *; [lia | done].
    + intros E. apply (f_equal length) in E. rewrite length_drop in E.
      simpl in E. lia.
  - rewrite split_join.
    + rewrite length_take. lia.
    + destruct (Py.split HT line); simpl in *; [lia | done].
    + apply Forall_take, split_no_sep.
  - rewrite loop_body_eq.
    assert (matches task_id line = false) as Hm
      by (apply not_true_iff_false; intros [_ ?]%matches_iff; congruence).
    rewrite Hm, orb_false_r, out_line_other by done.
    unfold pad. by rewrite bool_decide_false by lia.
Qed.

Lemma long_record_is_cut_witness :
  let line := lit "a" ++ [HT] ++ lit "T1" ++ [HT; HT; HT; HT; HT]
                ++ lit "seven" ++ [HT] ++ lit "eight" in
  ∃ kept dropped,
    line = kept ++ HT :: dropped ∧
    length (Py.split HT kept) = 6 ∧
    loop_body (lit "T2") (lit "done") (lit "abc123") (lit "ok") ([], false) line =
      ([kept], false).
Proof.
  intros line.
  apply (long_record_is_cut (lit "T2") (lit "done") (lit "abc123") (lit "ok")
           [] false line).
  - vm_compute. reflexivity.
  - vm_compute. discriminate.
  - vm_compute. lia.
Defined.
